(** * IM Quizzer ([st_quiz.py]): content selection, link scraping and quiz
    generation, embedded as Rocq functions.

    Python [str] values are sequences of Unicode code points; the effectful
    parts of the script (HTTP, the secrets store, the completion client and
    the Streamlit output calls) run in a small state-and-exception monad whose
    state carries the log of effects performed so far. *)

From Stdlib Require Import String Ascii.
From stdpp Require Import base list gmap sets sorting strings.

Open Scope N_scope.
Open Scope list_scope.

(** ** Python strings *)

Module PyStr.

(** A [str] is a sequence of code points. *)
Definition str := list N.

(** An ASCII literal. *)
Definition py (s : string) : str :=
map N_of_ascii (list_ascii_of_string s).

(** [ch.isspace()] for a single code point: the characters [str.strip()] and
  [str.split()] treat as whitespace. *)
Definition isspace (c : N) : bool :=
((9 <=? c) && (c <=? 13)) || ((28 <=? c) && (c <=? 32))
|| (c =? 133) || (c =? 160) || (c =? 5760)
|| ((8192 <=? c) && (c <=? 8202))
|| (c =? 8232) || (c =? 8233) || (c =? 8239) || (c =? 8287) || (c =? 12288).

(** The line boundaries of [str.splitlines()]. *)
Definition islinebreak (c : N) : bool :=
((10 <=? c) && (c <=? 13)) || ((28 <=? c) && (c <=? 30))
|| (c =? 133) || (c =? 8232) || (c =? 8233).

(** [s.lstrip()], [s.rstrip()], [s.strip()]. *)
Fixpoint lstrip (s : str) : str :=
match s with
| [] => []
| c :: s' => if isspace c then lstrip s' else s
end.

Definition rstrip (s : str) : str := rev (lstrip (rev s)).

Definition strip (s : str) : str := rstrip (lstrip s).

(** Truth value of a string: [bool(s)]. *)
Definition nonempty (s : str) : bool :=
match s with [] => false | _ => true end.

(** [s.split()]: the maximal runs of non-whitespace characters. [word] is the
  run being read. *)
Fixpoint split_from (word : str) (s : str) : list str :=
match s with
| [] => if nonempty word then [word] else []
| c :: s' =>
    if isspace c
    then (if nonempty word then word :: split_from [] s' else split_from [] s')
    else split_from (word ++ [c]) s'
end.

Definition split (s : str) : list str := split_from [] s.

(** [sep.join(parts)]. *)
Fixpoint join (sep : str) (parts : list str) : str :=
match parts with
| [] => []
| [p] => p
| p :: ps => p ++ sep ++ join sep ps
end.

(** [s.splitlines()]: [line] is the line being read; a carriage return
  followed by a line feed is one boundary; no empty last line is produced
  when the text ends in a boundary. *)
Fixpoint splitlines_from (line : str) (s : str) : list str :=
match s with
| [] => if nonempty line then [line] else []
| c :: s' =>
    if islinebreak c then
      match s' with
      | d :: s'' =>
          if (c =? 13) && (d =? 10)
          then line :: splitlines_from [] s''
          else line :: splitlines_from [] s'
      | [] => [line]
      end
    else splitlines_from (line ++ [c]) s'
end.

Definition splitlines (s : str) : list str := splitlines_from [] s.

(** Comparison of strings, code point by code point: [a <= b]. *)
Fixpoint str_leb (a b : str) : bool :=
match a, b with
| [], _ => true
| _ :: _, [] => false
| x :: a', y :: b' =>
    if x <? y then true else if y <? x then false else str_leb a' b'
end.

Definition str_le (a b : str) : Prop := str_leb a b = true.
Definition str_lt (a b : str) : Prop := str_le a b ∧ a ≠ b.

#[global] Instance str_le_dec a b : Decision (str_le a b).
Proof. unfold str_le. apply _. Defined.

(** [sorted(xs)] on strings. *)
Definition sorted (xs : list str) : list str := merge_sort str_le xs.

(** [needle in haystack]: a contiguous occurrence. *)
Definition substring (needle haystack : str) : Prop :=
∃ pre post, haystack = pre ++ needle ++ post.

(** A string without whitespace at either end. *)
Definition tight (s : str) : Prop :=
(∀ c r, s = c :: r → isspace c = false)
∧ (∀ r c, s = r ++ [c] → isspace c = false).

(** A maximal run read by [split]: non-empty, no whitespace inside. *)
Definition is_word (w : str) : Prop :=
w ≠ [] ∧ Forall (λ c, isspace c = false) w.


End PyStr.
Import PyStr.

(** ** Reference store and selection filter *)

(** One record of [treatments.csv]; the three columns hold text. A cell is
    [None] where the loader has no value for it: [NaN] in a data frame, [None]
    in a [csv.DictReader] row that is shorter than the header. *)
Record Row := {
  title : option str;
  section_title : option str;
  section_text : option str;
}.

(** What [load_treatments_data] hands to the page: a pandas data frame, or the
    list of dictionaries built by the [csv] fallback. *)
Inductive Dataset :=
  | DataFrame (rows : list Row)
  | RowList (rows : list Row).

Definition hasattr_columns (data : Dataset) : bool :=
  match data with DataFrame _ => true | RowList _ => false end.

Definition rows_of (data : Dataset) : list Row :=
  match data with DataFrame rows | RowList rows => rows end.

(** Truth value of [row.get(key)]: false for [None] and for the empty string. *)
Definition truthy (v : option str) : bool :=
  match v with Some (_ :: _) => true | _ => false end.

(** [f"{v}"] for a dictionary value. *)
Definition fmt (v : option str) : str :=
  match v with Some s => s | None => py "None" end.

(** [Series.astype(str)] on one cell. *)
Definition astype_str (v : option str) : str :=
  match v with Some s => s | None => py "nan" end.

(** [Series.notna()] on one cell. *)
Definition notna (v : option str) : bool :=
  match v with Some _ => true | None => false end.

(** [value in values] for a cell and a list of strings. *)
Definition isin (v : option str) (values : list str) : bool :=
  match v with Some s => bool_decide (s ∈ values) | None => false end.

Definition sep_label : str := py " - ".

(** [Series.unique()]: distinct values in order of first appearance. *)
Fixpoint unique_from (seen : list str) (xs : list str) : list str :=
  match xs with
  | [] => []
  | x :: xs' =>
      if bool_decide (x ∈ seen) then unique_from seen xs'
      else x :: unique_from (x :: seen) xs'
  end.

Definition unique (xs : list str) : list str := unique_from [] xs.

(** A Python [set] of strings built by a comprehension. *)
Definition set_of (xs : list str) : gset str := list_to_set xs.

Definition some_values (cells : list (option str)) : list str :=
  omap id cells.

Module Pandas.

(** [sorted(data["title"].dropna().unique())] *)
Definition titles (data : list Row) : list str :=
  sorted (unique (some_values (map title data))).

(** [data[data["title"].isin(selected_titles)]] followed by
    [dropna(subset=["title", "section_title"])] and
    [assign(section_label=...)]: each kept row with its label. *)
Definition filtered (data : list Row) (selected_titles : list str)
  : list (Row * str) :=
  let filtered := List.filter (λ r, isin (title r) selected_titles) data in
  let filtered :=
    List.filter (λ r, notna (title r) && notna (section_title r)) filtered in
  map (λ r, (r, astype_str (title r) ++ sep_label ++ astype_str (section_title r)))
      filtered.

(** [sorted(filtered["section_label"].unique())] *)
Definition section_labels (data : list Row) (selected_titles : list str)
  : list str :=
  sorted (unique (map snd (filtered data selected_titles))).

(** The loop over [selected_sections] filling [section_text_output];
    [some_values] is the [dropna()] on the texts, and [str(text)] is the text. *)
Definition section_text_output (data : list Row)
    (selected_titles selected_sections : list str) : list str :=
  let filtered := filtered data selected_titles in
  let selected_rows :=
    List.filter (λ rl, bool_decide (snd rl ∈ selected_sections)) filtered in
  flat_map
    (λ section_label,
       let texts :=
         some_values
           (map (λ rl, section_text (fst rl))
              (List.filter (λ rl, bool_decide (snd rl = section_label))
                 selected_rows)) in
       texts)
    selected_sections.

End Pandas.

Module Csv.

(** [sorted({row["title"] for row in data if row.get("title")})] *)
Definition titles (data : list Row) : list str :=
  sorted (elements (set_of
    (some_values (map title (List.filter (λ r, truthy (title r)) data))))).

(** [[row for row in data if row.get("title") in selected_titles]] *)
Definition filtered (data : list Row) (selected_titles : list str) : list Row :=
  List.filter (λ r, isin (title r) selected_titles) data.

(** [f"{row.get('title')} - {row.get('section_title')}"] *)
Definition label (r : Row) : str :=
  fmt (title r) ++ sep_label ++ fmt (section_title r).

Definition section_labels (data : list Row) (selected_titles : list str)
  : list str :=
  sorted (elements (set_of
    (map label
       (List.filter (λ r, truthy (title r) && truthy (section_title r))
          (filtered data selected_titles))))).

(** The loop over [selected_sections]; [fmt] is the [str(text)] of a text that
    passed the truth test. *)
Definition section_text_output (data : list Row)
    (selected_titles selected_sections : list str) : list str :=
  let filtered := filtered data selected_titles in
  flat_map
    (λ section_label,
       let texts :=
         map (λ r, section_text r)
           (List.filter
              (λ r, truthy (section_text r)
                    && bool_decide (label r = section_label))
              filtered) in
       map fmt texts)
    selected_sections.

End Csv.

(** [\n\n] *)
Definition blank_line : str := [10; 10].

(** The page takes the pandas branch when pandas is importable and the data
    has a [columns] attribute, the [csv] branch otherwise. *)
Definition uses_pandas (pd : bool) (data : Dataset) : bool :=
  pd && hasattr_columns data.

(** The options of the two widgets and the texts gathered, for the branch the
    page takes. *)
Definition page_titles (pd : bool) (data : Dataset) : list str :=
  if uses_pandas pd data then Pandas.titles (rows_of data)
  else Csv.titles (rows_of data).

Definition page_section_labels (pd : bool) (data : Dataset)
    (selected_titles : list str) : list str :=
  if uses_pandas pd data then Pandas.section_labels (rows_of data) selected_titles
  else Csv.section_labels (rows_of data) selected_titles.

Definition page_section_text_output (pd : bool) (data : Dataset)
    (selected_titles selected_sections : list str) : list str :=
  if uses_pandas pd data
  then Pandas.section_text_output (rows_of data) selected_titles selected_sections
  else Csv.section_text_output (rows_of data) selected_titles selected_sections.

(** [pd.read_csv] reads an empty field as [NaN]: no cell of a data frame holds
    the empty string. *)
Definition not_empty_cell (v : option str) : bool :=
  match v with Some [] => false | _ => true end.

Definition frame_cells_ok (data : Dataset) : bool :=
  match data with
  | DataFrame rows =>
      forallb (λ r, not_empty_cell (title r) && not_empty_cell (section_title r)
                    && not_empty_cell (section_text r)) rows
  | RowList _ => true
  end.

(** *** The selection filter as the specification words it *)

(** A record is kept for a label when its title is selected, its section title
    is non-empty and ["{title} - {section_title}"] is the label. *)
Definition matches (selected_titles : list str) (section_label : str) (r : Row)
  : bool :=
  match title r, section_title r with
  | Some t, Some (c :: s) =>
      bool_decide (t ∈ selected_titles)
      && bool_decide (t ++ sep_label ++ c :: s = section_label)
  | _, _ => false
  end.

(** Every section text of the matching records, a missing text being the
    empty string. *)
Definition matching_texts_all (rows : list Row) (selected_titles : list str)
    (section_label : str) : list str :=
  map (λ r, from_option id [] (section_text r))
      (List.filter (matches selected_titles section_label) rows).

(** Every non-empty section text of the matching records. *)
Definition matching_texts (rows : list Row) (selected_titles : list str)
    (section_label : str) : list str :=
  List.filter nonempty (matching_texts_all rows selected_titles section_label).

Definition article_text_all (rows : list Row)
    (selected_titles selected_sections : list str) : str :=
  strip (join blank_line
    (flat_map (matching_texts_all rows selected_titles) selected_sections)).

Definition article_text_nonempty (rows : list Row)
    (selected_titles selected_sections : list str) : str :=
  strip (join blank_line
    (flat_map (matching_texts rows selected_titles) selected_sections)).

(** No record that has a selected title but lacks a section title formats to
    one of the labels. *)
Definition no_untitled_match (rows : list Row)
    (selected_titles selected_sections : list str) : bool :=
  forallb
    (λ r, negb (isin (title r) selected_titles
                && negb (truthy (section_title r))
                && bool_decide (Csv.label r ∈ selected_sections)))
    rows.

(** The derived label set of the specification: the labels of the records
    whose title is selected and whose section title is non-empty, each once,
    in increasing order. *)
Definition is_label_set (labels : list str) (rows : list Row)
    (selected_titles : list str) : Prop :=
  StronglySorted str_lt labels
  ∧ NoDup labels
  ∧ ∀ x, x ∈ labels ↔
      ∃ r t s, r ∈ rows ∧ title r = Some t ∧ t ∈ selected_titles
               ∧ section_title r = Some s ∧ s ≠ []
               ∧ x = t ++ py " - " ++ s.

(** ** The parsed page *)

(** A node of the tree [BeautifulSoup] builds. [Text] is a string that
    [get_text] yields (a [NavigableString] or [CData]); [Special] is a string
    it does not yield (a comment, a doctype, and in recent versions of the
    library the string inside a [script], [style] or [template] element).
    Attributes are left out: the script never reads them. [Gone] is the place
    of a tag that was decomposed: the tags found before keep their positions,
    as the objects held by a [ResultSet] keep their identity. *)
#[warnings="-register-all"]
Inductive Node :=
  | Element (name : str) (contents : list Node)
  | Text (s : str)
  | Special (s : str)
  | Gone.

(** The position of a node: the indices to follow from the top. *)
Definition Path := list nat.

(** [["script", "style", "noscript"]] *)
Definition hidden_tags : list str := [py "script"; py "style"; py "noscript"].

(** [find_all(names)] below a node, in document order: the node itself first
    when called on a content ([[]] is the node's own position), then what is
    found in each of its contents. *)
Fixpoint find_in (names : list str) (n : Node) : list Path :=
  match n with
  | Element name contents =>
      (if bool_decide (name ∈ names) then [[]] else [])
      ++ (fix find_from (i : nat) (nodes : list Node) : list Path :=
            match nodes with
            | [] => []
            | c :: nodes' =>
                map (cons i) (find_in names c) ++ find_from (S i) nodes'
            end) 0%nat contents
  | _ => []
  end.

Fixpoint find_from (names : list str) (i : nat) (nodes : list Node) : list Path :=
  match nodes with
  | [] => []
  | c :: nodes' => map (cons i) (find_in names c) ++ find_from names (S i) nodes'
  end.

(** [soup(names)]: the tags with one of the names, anywhere in the document. *)
Definition find_all (names : list str) (soup : list Node) : list Path :=
  find_from names 0%nat soup.

(** [tag.decompose()] for the tag at a position below a node. *)
Fixpoint decompose_node (p : Path) (n : Node) : Node :=
  match p with
  | [] => Gone
  | i :: p' =>
      match n with
      | Element name contents =>
          Element name (alter (decompose_node p') i contents)
      | _ => n
      end
  end.

(** [tag.decompose()] for the tag at a position in the document. *)
Definition decompose (p : Path) (soup : list Node) : list Node :=
  match p with
  | [] => soup
  | i :: p' => alter (decompose_node p') i soup
  end.

(** [for tag in tags: tag.decompose()] *)
Definition decompose_each (tags : list Path) (soup : list Node) : list Node :=
  foldl (λ soup tag, decompose tag soup) soup tags.

(** The strings [get_text] goes through, in document order. *)
Fixpoint strings (n : Node) : list str :=
  match n with
  | Element _ contents => flat_map strings contents
  | Text s => [s]
  | _ => []
  end.

(** [soup.get_text(separator=sep)] *)
Definition get_text (sep : str) (soup : list Node) : str :=
  join sep (flat_map strings soup).



(** ** Effects *)

(** A raised exception: its class and [str(exc)]. Only exceptions below
    [Exception] are modelled. *)
Record Exn := { exn_type : string; exn_str : str }.

Inductive Outcome (A : Type) :=
  | Ok (a : A)
  | Raise (e : Exn).
Arguments Ok {A} a.
Arguments Raise {A} e.

(** One entry of the list returned by [scrape_links]:
    [{"url": link, "text": text}] or [{"url": link, "error": str(exc)}]. *)
Inductive FetchResult :=
  | Fetched (url text : str)
  | Failed (url error : str).

Definition url_of (item : FetchResult) : str :=
  match item with Fetched url _ | Failed url _ => url end.

(** ["error" in item] *)
Definition has_error (item : FetchResult) : bool :=
  match item with Fetched _ _ => false | Failed _ _ => true end.

(** [[item["text"] for item in scraped if "text" in item]] *)
Definition texts_of (scraped : list FetchResult) : list str :=
  omap (λ item, match item with Fetched _ text => Some text | Failed _ _ => None end)
       scraped.

(** The value given to the [link_text] slot: a list of strings, or a string. *)
Inductive SlotValue :=
  | PyList (items : list str)
  | PyStr (s : str).

(** The [inputs] dictionary of [create_quiz]. *)
Record Inputs := {
  article : str;
  questions : Z;
  focus : str;
  lakemedel : str;
  link_text : SlotValue;
}.

(** The arguments of [AzureChatOpenAI(...)]; [temperature] is the constant 0. *)
Record LlmConfig := {
  azure_deployment : str;
  api_version : str;
  azure_endpoint : str;
  api_key : str;
}.

(** What [requests.get] returns: the status, the decoded body, and the message
    of the [HTTPError] that [raise_for_status] raises for this response. *)
Record Response := {
  status_code : Z;
  text : str;
  http_error : str;
}.

(** The effects the script performs, in the order it performs them. *)
Inductive Event :=
  | HttpGet (url user_agent : str) (timeout : Z)
  | SecretsGet (key : string)
  | AzureChatOpenAI (cfg : LlmConfig)
  | ChainInvoke (cfg : LlmConfig) (inputs : Inputs)
  | StError (msg : str)
  | StWarning (msg : str)
  | StInfo (msg : str)
  | StMarkdown (body : str)
  | StImage (path : str)
  | StTitle (body : str)
  | StSubheader (body : str)
  | StDivider.

(** Events that only [create_quiz] produces. *)
Definition from_create_quiz (e : Event) : bool :=
  match e with
  | SecretsGet _ | AzureChatOpenAI _ | ChainInvoke _ _ => true
  | _ => false
  end.

(** Events that reach the completion capability or build its client. *)
Definition completion_event (e : Event) : bool :=
  match e with
  | AzureChatOpenAI _ | ChainInvoke _ _ => true
  | _ => false
  end.

Definition network_event (e : Event) : bool :=
  match e with
  | HttpGet _ _ _ | ChainInvoke _ _ => true
  | _ => false
  end.

(** [st.secrets]: the mapping from names to strings read from the secrets
    file, or, when there is no secrets file or it cannot be read, the
    exception that every read raises ([StreamlitSecretNotFoundError] for a
    missing file). What Streamlit displays of its own accord in that case is
    no call of the script and is not logged. *)
Inductive Secrets :=
  | SecretsFile (entries : gmap string str)
  | SecretsUnavailable (exc : Exn).

(** The value stored under a name; a store that cannot be read holds none. *)
#[global] Instance secrets_lookup : Lookup string str Secrets :=
  λ key s,
    match s with
    | SecretsFile entries => entries !! key
    | SecretsUnavailable _ => None
    end.

(** The state a run of the script works on: the network, [st.secrets], the
    dataset file if the project folder has one, whether pandas is importable,
    and the effects so far. *)
Record World {Net CsvFile : Type} := {
  net : Net;
  secrets : Secrets;
  treatments_csv : option CsvFile;
  pd : bool;
  log : list Event;
}.
Arguments World : clear implicits.

(** The widgets' values for one run of the script. *)
Record UserInput := {
  links_text : str;
  prompt_text : str;
  questions_slider : Z;
  lakemedel_text : str;
  titles_picked : list str;
  sections_picked : list str;
  generate_quiz : bool;
}.

(** Messages. The code points 228, 229 and 246 are the letters a and o with
    diaeresis and a with ring. *)
Definition msg_data_not_found : str :=
  py "internetmedicin data kunde inte hittas i projektmappen.".
Definition msg_pick_sections : str :=
  py "V" ++ [228] ++ py "lj ett eller flera avsnitt f" ++ [246]
  ++ py "r att visa text.".
Definition msg_selection_empty : str :=
  py "V" ++ [228] ++ py "lj minst ett avsnitt f" ++ [246]
  ++ py "r att skapa quiz.".
Definition msg_scrape_warning : str :=
  py "Vissa l" ++ [228] ++ py "nkar kunde inte skrapas.".
Definition msg_secrets_missing : str := py "Azure OpenAI secrets are missing.".
Definition default_focus : str :=
  py "allm" ++ [228] ++ py "n f" ++ [246] ++ py "rst" ++ [229] ++ py "else".
Definition html_heading : str :=
  py "<h4>V" ++ [228] ++ py "lj inneh" ++ [229] ++ py "ll och skapa quiz:</h4>".
Definition html_generate : str :=
  py "<h1 style='text-align: center;'>Skapa Quiz</h1>".
Definition subheader_select : str :=
  py "V" ++ [228] ++ py "lj inneh" ++ [229] ++ py "ll fr" ++ [229]
  ++ py "n internetmedicin".
Definition user_agent : str :=
  py "Mozilla/5.0 (Macintosh; Intel Mac OS X 10_15_7) AppleWebKit/537.36 (KHTML, like Gecko) Chrome/121.0 Safari/537.36".

(** The requests a batch of links makes. *)
Definition http_gets (links : list str) : list Event :=
  map (λ link, HttpGet link user_agent 20) links.

(** The reads of [st.secrets] at the start of [create_quiz]. *)
Definition secrets_reads : list Event :=
  [ SecretsGet "JOHAN_AZURE_OPENAI_KEY";
    SecretsGet "JOHAN_AZURE_OPENAI_API_VERSION";
    SecretsGet "JOHAN_AZURE_OPENAI_ENDPOINT";
    SecretsGet "JOHAN_AZURE_OPENAI_DEPLOYMENT" ].

(** The reads [create_quiz] gets to make: all four of a store that can be
    read, the first one only of a store that cannot. *)
Definition reads_made (s : Secrets) : list Event :=
  match s with
  | SecretsFile _ => secrets_reads
  | SecretsUnavailable _ => [SecretsGet "JOHAN_AZURE_OPENAI_KEY"]
  end.

(** The exception that leaves [create_quiz] when the key or the endpoint is
    missing: the [RuntimeError] of line 113 when the store can be read, the
    store's own exception when it cannot. *)
Definition missing_credentials_error (s : Secrets) : Exn :=
  match s with
  | SecretsFile _ =>
      {| exn_type := "RuntimeError"; exn_str := msg_secrets_missing |}
  | SecretsUnavailable exc => exc
  end.

(** Requests for a page. *)
Definition is_http_get (e : Event) : bool :=
  match e with HttpGet _ _ _ => true | _ => false end.

(** The inputs of the calls to the completion capability among some events. *)
Definition sent_inputs (evs : list Event) : list Inputs :=
  omap (λ e, match e with ChainInvoke _ inputs => Some inputs | _ => None end) evs.

(** The widgets' values with another text in the prompt box. *)
Definition with_prompt_text (prompt : str) (ui : UserInput) : UserInput :=
  {| links_text := links_text ui; prompt_text := prompt;
     questions_slider := questions_slider ui;
     lakemedel_text := lakemedel_text ui; titles_picked := titles_picked ui;
     sections_picked := sections_picked ui; generate_quiz := generate_quiz ui |}.

Section Script.

Context {Net CsvFile : Type}.

(** The libraries the script calls. [requests_get] is [requests.get];
    [html_parser] is [BeautifulSoup(markup, "html.parser")], giving the
    contents of the document. [azure_chat_openai] is the client's
    constructor, [chain_invoke] formats the prompt template with the inputs
    and calls the model. [pd_read_csv] and [csv_dict_reader] parse the
    dataset. *)
Variable requests_get : str → Net → Outcome Response * Net.
Variable html_parser : str → list Node.
Variable azure_chat_openai : LlmConfig → Outcome unit.
Variable chain_invoke : LlmConfig → Inputs → Net → Outcome str * Net.
Variable pd_read_csv : CsvFile → Outcome (list Row).
Variable csv_dict_reader : CsvFile → Outcome (list Row).

Abbreviation World := (World Net CsvFile).

(** Computations that read and change the world and may raise. *)
Definition M (A : Type) : Type := World → Outcome A * World.

Definition ret {A} (a : A) : M A := λ w, (Ok a, w).

Definition bind {A B} (m : M A) (k : A → M B) : M B :=
  λ w, match m w with
       | (Ok a, w') => k a w'
       | (Raise e, w') => (Raise e, w')
       end.

Definition raise {A} (e : Exn) : M A := λ w, (Raise e, w).

(** [try: body except Exception as exc: handler(exc)] *)
Definition try_except {A} (body : M A) (handler : Exn → M A) : M A :=
  λ w, match body w with
       | (Ok a, w') => (Ok a, w')
       | (Raise e, w') => handler e w'
       end.

Definition log_event (e : Event) (w : World) : World :=
  {| net := net w; secrets := secrets w; treatments_csv := treatments_csv w;
     pd := pd w; log := log w ++ [e] |}.

Definition set_net (n : Net) (w : World) : World :=
  {| net := n; secrets := secrets w; treatments_csv := treatments_csv w;
     pd := pd w; log := log w |}.

Definition emit (e : Event) : M unit := λ w, (Ok tt, log_event e w).

(** A call that goes out to the network. *)
Definition with_net {A} (call : Net → Outcome A * Net) : M A :=
  λ w, let '(r, n) := call (net w) in (r, set_net n w).

Definition of_outcome {A} (r : Outcome A) : M A := λ w, (r, w).

Notation "'let*' x := m 'in' k" := (bind m (λ x, k))
  (at level 10, x name, m at level 100, k at level 200, only parsing).
Notation "'let*' ' pat := m 'in' k" :=
  (bind m (λ x, match x with pat => k end))
  (at level 10, pat pattern, m at level 100, k at level 200, only parsing).
Notation "m >> k" := (bind m (λ _, k))
  (at level 100, k at level 200, only parsing, right associativity).

Definition st_error (msg : str) : M unit := emit (StError msg).
Definition st_warning (msg : str) : M unit := emit (StWarning msg).
Definition st_info (msg : str) : M unit := emit (StInfo msg).
Definition st_markdown (body : str) : M unit := emit (StMarkdown body).
Definition st_divider : M unit := emit StDivider.

(** [st.secrets.get(key)] and [st.secrets.get(key, default)]: a name that
    the store does not hold gives [None] or the default; a store that cannot
    be read raises. *)
Definition secrets_get (key : string) : M (option str) :=
  emit (SecretsGet key) >>
  (λ w, match secrets w with
        | SecretsFile entries => (Ok (entries !! key), w)
        | SecretsUnavailable exc => (Raise exc, w)
        end).

Definition secrets_get_default (key : string) (default : str) : M str :=
  let* v := secrets_get key in ret (from_option id default v).

(** *** [load_treatments_data] *)
Definition load_treatments_data : M (option Dataset) :=
  λ w,
    match treatments_csv w with
    | None => (Ok None, w)
    | Some file =>
        if pd w
        then bind (of_outcome (pd_read_csv file))
                  (λ rows, ret (Some (DataFrame rows))) w
        else bind (of_outcome (csv_dict_reader file))
                  (λ rows, ret (Some (RowList rows))) w
    end.

(** *** [create_quiz] *)
Definition create_quiz (article : str) (focus : str) (questions : Z)
    (lakemedel : str) (link_text : SlotValue) : M str :=
  let inputs := {| article := article; questions := questions; focus := focus;
                   lakemedel := lakemedel; link_text := link_text |} in
  let* api_key := secrets_get "JOHAN_AZURE_OPENAI_KEY" in
  let* api_version := secrets_get_default "JOHAN_AZURE_OPENAI_API_VERSION" (py "2024-12-01-preview") in
  let* api_endpoint := secrets_get "JOHAN_AZURE_OPENAI_ENDPOINT" in
  let* deployment := secrets_get_default "JOHAN_AZURE_OPENAI_DEPLOYMENT" (py "gpt-5-chat") in
  if negb (truthy api_key) || negb (truthy api_endpoint)
  then raise {| exn_type := "RuntimeError"; exn_str := msg_secrets_missing |}
  else
    let llm := {| azure_deployment := deployment; api_version := api_version;
                  azure_endpoint := from_option id [] api_endpoint;
                  api_key := from_option id [] api_key |} in
    emit (AzureChatOpenAI llm) >>
    of_outcome (azure_chat_openai llm) >>
    emit (ChainInvoke llm inputs) >>
    with_net (chain_invoke llm inputs).

(** *** [scrape_links]

    This is the body of the function, as run on a cold [st.cache_data] cache;
    the same holds for [load_treatments_data]. *)

(** [response.raise_for_status()] *)
Definition raise_for_status (response : Response) : M unit :=
  if ((400 <=? status_code response) && (status_code response <? 600))%Z
  then raise {| exn_type := "HTTPError"; exn_str := http_error response |}
  else ret tt.

(** The body of the [try] for one link: the dictionary appended on success. *)
Definition scrape_one (link : str) : M FetchResult :=
  emit (HttpGet link user_agent 20) >>
  let* response := with_net (requests_get link) in
  raise_for_status response >>
  let soup := html_parser (text response) in
  let soup := decompose_each (find_all hidden_tags soup) soup in
  let text := join (py " ") (split (get_text (py " ") soup)) in
  ret (Fetched link text).

(** What [scrape_one] hands to [split]: the text of the parsed body after the
    loop that decomposes the hidden tags. *)
Definition visible_text (body : str) : str :=
  let soup := html_parser body in
  get_text (py " ") (decompose_each (find_all hidden_tags soup) soup).

(** What one pass of the loop appends for [link], given what [requests.get]
    did: used to state the loop's properties. *)
Definition item_for (link : str) (got : Outcome Response) : FetchResult :=
  match got with
  | Ok response =>
      if ((400 <=? status_code response) && (status_code response <? 600))%Z
      then Failed link (http_error response)
      else Fetched link (join (py " ") (split (visible_text (text response))))
  | Raise exc => Failed link (exn_str exc)
  end.

(** The loop over [links]; [results] is the list built so far. *)
Fixpoint scrape_loop (links : list str) (results : list FetchResult)
  : M (list FetchResult) :=
  match links with
  | [] => ret results
  | link :: rest =>
      let* results :=
        try_except
          (let* item := scrape_one link in ret (results ++ [item]))
          (λ exc, ret (results ++ [Failed link (exn_str exc)])) in
      scrape_loop rest results
  end.

Definition scrape_links (links : list str) : M (list FetchResult) :=
  scrape_loop links [].

(** *** The page *)

(** [st.multiselect(label, options=options)]: the user's picks, which are
    among the options offered. *)
Definition multiselect (options picked : list str) : list str :=
  List.filter (λ x, bool_decide (x ∈ options)) picked.

(** The block from [if data is None:] to the last [st.info]: returns
    [selected_titles], [selected_sections] and [section_text_output]. *)
Definition select_content (data : option Dataset) (ui : UserInput)
  : M (list str * list str * list str) :=
  match data with
  | None => st_error msg_data_not_found >> ret ([], [], [])
  | Some data =>
      let* pd_loaded := (λ w, (Ok (pd w), w)) in
      if pd_loaded && hasattr_columns data then
        let rows := rows_of data in
        let titles := Pandas.titles rows in
        let selected_titles := multiselect titles (titles_picked ui) in
        let section_labels := Pandas.section_labels rows selected_titles in
        let selected_sections := multiselect section_labels (sections_picked ui) in
        if bool_decide (selected_sections ≠ [])
        then ret (selected_titles, selected_sections,
                  Pandas.section_text_output rows selected_titles selected_sections)
        else st_info msg_pick_sections >> ret (selected_titles, selected_sections, [])
      else
        let rows := rows_of data in
        let titles := Csv.titles rows in
        let selected_titles := multiselect titles (titles_picked ui) in
        let section_labels := Csv.section_labels rows selected_titles in
        let selected_sections := multiselect section_labels (sections_picked ui) in
        if bool_decide (selected_sections ≠ [])
        then ret (selected_titles, selected_sections,
                  Csv.section_text_output rows selected_titles selected_sections)
        else st_info msg_pick_sections >> ret (selected_titles, selected_sections, [])
  end.

(** [[link.strip() for link in links_text.splitlines() if link.strip()]] *)
Definition links_of (links_text : str) : list str :=
  map strip (List.filter (λ link, nonempty (strip link)) (splitlines links_text)).

(** First half of the [if generate_quiz:] block, down to the scrape warning:
    returns [article_text], [links] and [scraped_texts] ([scraped_texts] is
    unbound in the source when there are no links; it is then not read). *)
Definition gather_article (ui : UserInput) (section_text_output : list str)
  : M (str * list str * list str) :=
  let article_text := strip (join blank_line section_text_output) in
  let links := links_of (links_text ui) in
  if bool_decide (links ≠ []) then
    let* scraped := scrape_links links in
    let scraped_texts := texts_of scraped in
    let article_text := strip (join blank_line ([article_text] ++ scraped_texts)) in
    let scrape_errors := List.filter has_error scraped in
    (if bool_decide (scrape_errors ≠ []) then st_warning msg_scrape_warning else ret tt) >>
    ret (article_text, links, scraped_texts)
  else ret (article_text, links, []).

(** Second half: refuse an empty article, otherwise call [create_quiz] and
    show the quiz or the error. *)
Definition submit_article (ui : UserInput) (article_text : str)
    (links scraped_texts : list str) : M unit :=
  if negb (nonempty article_text) then st_error msg_selection_empty
  else
    try_except
      (let* quiz_json := create_quiz article_text
           (if nonempty (prompt_text ui) then prompt_text ui else default_focus)
           (questions_slider ui)
           (lakemedel_text ui)
           (if bool_decide (links ≠ []) then PyList scraped_texts else PyStr []) in
       st_divider >>
       st_markdown quiz_json)
      (λ exc, st_error (exn_str exc)).

Definition on_generate_quiz (ui : UserInput) (section_text_output : list str)
  : M unit :=
  let* '(article_text, links, scraped_texts) := gather_article ui section_text_output in
  submit_article ui article_text links scraped_texts.

(** One run of the script, top to bottom. The widgets' values are [ui];
    [set_page_config], the column layout and the spinners are left out. *)
Definition page (ui : UserInput) : M unit :=
  emit (StImage (py "im-logo-white-text.png")) >>
  emit (StTitle (py "IM Quizzer")) >>
  st_divider >>
  st_markdown html_heading >>
  st_divider >>
  emit (StSubheader subheader_select) >>
  let* data := load_treatments_data in
  let* '(selected_titles, selected_sections, section_text_output) :=
    select_content data ui in
  st_divider >>
  st_markdown html_generate >>
  if generate_quiz ui then on_generate_quiz ui section_text_output else ret tt.

End Script.

(** ** A concrete platform to run the script on *)

Module Demo.

(** The network counts the requests made. [http://a.test] times out,
    [http://b.test] serves a small page, everything else is not found. *)
Definition hello_page : str :=
  py "<html><body>Hello<script>bad()</script></body></html>".

(** The tree of [hello_page]: the document holds [html], which holds [body],
    which holds the string and the [script] element with its code. *)
Definition hello_soup : list Node :=
  [ Element (py "html")
      [ Element (py "body")
          [ Text (py "Hello");
            Element (py "script") [Special (py "bad()")] ] ] ].

(** The tree of
    [<p>Read<noscript>Enable <style>b{}</style><b>scripts</b></noscript> on</p>]:
    the strings inside [noscript] are strings like any other, and one of the
    tags found lies inside another. *)
Definition notice_soup : list Node :=
  [ Element (py "p")
      [ Text (py "Read");
        Element (py "noscript")
          [ Text (py "Enable ");
            Element (py "style") [Special (py "b{}")];
            Element (py "b") [Text (py "scripts")] ];
        Text (py " on") ] ].

(** A parser that knows [hello_page] and takes any other body for plain text
    with no markup: one string, or nothing when the body is empty. *)
Definition html_parser (markup : str) : list Node :=
  if bool_decide (markup = hello_page) then hello_soup
  else if nonempty markup then [Text markup] else [].

Definition requests_get (url : str) (n : nat) : Outcome Response * nat :=
  if bool_decide (url = py "http://a.test")
  then (Raise {| exn_type := "ConnectTimeout"; exn_str := py "timed out" |}, S n)
  else if bool_decide (url = py "http://b.test")
  then (Ok {| status_code := 200; text := hello_page; http_error := [] |}, S n)
  else (Ok {| status_code := 404; text := py "gone";
              http_error := py "404 Client Error: Not Found" |}, S n).

Definition azure_chat_openai (cfg : LlmConfig) : Outcome unit := Ok tt.

Definition chain_invoke (cfg : LlmConfig) (inputs : Inputs) (n : nat)
  : Outcome str * nat :=
  (Ok (py "## Quiz"), S n).

(** The dataset file, as its records. [pd.read_csv] reads an empty field as
    missing; [csv.DictReader] keeps it. *)
Definition na_if_empty (v : option str) : option str :=
  match v with Some [] => None | _ => v end.

Definition pd_read_csv (file : list Row) : Outcome (list Row) :=
  Ok (map (λ r, {| title := na_if_empty (title r);
                   section_title := na_if_empty (section_title r);
                   section_text := na_if_empty (section_text r) |}) file).

Definition csv_dict_reader (file : list Row) : Outcome (list Row) := Ok file.

(** A reader that fails on every file. *)
Definition broken_reader (file : list Row) : Outcome (list Row) :=
  Raise {| exn_type := "ValueError"; exn_str := py "Usecols do not match columns" |}.

Definition asthma : list Row :=
  [ {| title := Some (py "Asthma"); section_title := Some (py "Treatment");
       section_text := Some (py "Use inhaled steroids.") |};
    {| title := Some (py "Asthma"); section_title := Some (py "Diagnosis");
       section_text := Some (py "Spirometry.") |};
    {| title := Some (py "COPD"); section_title := None;
       section_text := Some (py "x") |} ].

(** Three records under one label, the middle one without text. *)
Definition gapped : list Row :=
  [ {| title := Some (py "A"); section_title := Some (py "S");
       section_text := Some (py "a") |};
    {| title := Some (py "A"); section_title := Some (py "S");
       section_text := Some [] |};
    {| title := Some (py "A"); section_title := Some (py "S");
       section_text := Some (py "b") |} ].

Definition configured : gmap string str :=
  {[ "JOHAN_AZURE_OPENAI_KEY" := py "key";
     "JOHAN_AZURE_OPENAI_ENDPOINT" := py "https://example.openai.azure.com" ]}.

Definition world (secrets : gmap string str) (file : option (list Row))
  : World nat (list Row) :=
  {| net := 0%nat; secrets := SecretsFile secrets; treatments_csv := file;
     pd := false; log := [] |}.

(** What a read of the secrets raises in a project without a secrets file. *)
Definition secret_not_found : Exn :=
  {| exn_type := "StreamlitSecretNotFoundError";
     exn_str := py "No secrets found." |}.

Definition world_without_secrets : World nat (list Row) :=
  {| net := 0%nat; secrets := SecretsUnavailable secret_not_found;
     treatments_csv := None; pd := false; log := [] |}.

Definition ui : UserInput :=
  {| links_text := py "http://a.test" ++ [10] ++ py "  " ++ [10]
                   ++ py " http://b.test ";
     prompt_text := [];
     questions_slider := 3;
     lakemedel_text := [];
     titles_picked := [py "Asthma"];
     sections_picked := [py "Asthma - Treatment"];
     generate_quiz := true |}.

(** The same form with nothing picked and no link typed. *)
Definition ui_empty : UserInput :=
  {| links_text := py "  "; prompt_text := []; questions_slider := 5;
     lakemedel_text := []; titles_picked := []; sections_picked := [];
     generate_quiz := true |}.

(** The client and the request of a run of [ui] on the configured world. *)
Definition cfg : LlmConfig :=
  {| azure_deployment := py "gpt-5-chat"; api_version := py "2024-12-01-preview";
     azure_endpoint := py "https://example.openai.azure.com";
     api_key := py "key" |}.

Definition inputs : Inputs :=
  {| article := py "Use inhaled steroids." ++ blank_line ++ py "Hello";
     questions := 3; focus := default_focus; lakemedel := [];
     link_text := PyList [py "Hello"] |}.

(** The form of [ui] with the button not pressed. *)
Definition ui_idle : UserInput :=
  {| links_text := links_text ui; prompt_text := prompt_text ui;
     questions_slider := questions_slider ui;
     lakemedel_text := lakemedel_text ui; titles_picked := titles_picked ui;
     sections_picked := sections_picked ui; generate_quiz := false |}.

Definition scrape_links :=
  @scrape_links nat (list Row) requests_get html_parser.
Definition create_quiz :=
  @create_quiz nat (list Row) azure_chat_openai chain_invoke.
Definition on_generate_quiz :=
  @on_generate_quiz nat (list Row) requests_get html_parser azure_chat_openai
    chain_invoke.
Definition page :=
  @page nat (list Row) requests_get html_parser azure_chat_openai chain_invoke
    pd_read_csv csv_dict_reader.

End Demo.

Example splitlines_ex :
  splitlines (py "a" ++ [13; 10] ++ py "b" ++ [10; 10] ++ py "c" ++ [10])
  = [py "a"; py "b"; []; py "c"].
Proof. reflexivity. Qed.

Example split_ex : split (py "  a b" ++ [9; 10] ++ py "c ") = [py "a"; py "b"; py "c"].
Proof. reflexivity. Qed.

Example strip_ex : strip ([10; 32] ++ py "a b" ++ [160]) = py "a b".
Proof. reflexivity. Qed.

Example sorted_ex : sorted [py "b"; py "ab"; py "a"; py "B"] = [py "B"; py "a"; py "ab"; py "b"].
Proof. vm_compute. reflexivity. Qed.

Example csv_labels_ex :
  Csv.section_labels Demo.asthma [py "Asthma"] = [py "Asthma - Diagnosis"; py "Asthma - Treatment"].
Proof. vm_compute. reflexivity. Qed.

Example pd_labels_ex :
  Pandas.section_labels Demo.asthma [py "Asthma"] = [py "Asthma - Diagnosis"; py "Asthma - Treatment"].
Proof. vm_compute. reflexivity. Qed.

Example csv_titles_ex : Csv.titles Demo.asthma = [py "Asthma"; py "COPD"].
Proof. vm_compute. reflexivity. Qed.

Example visible_text_ex :
  find_all hidden_tags Demo.hello_soup = [[0; 0; 1]]%nat
  ∧ decompose_each (find_all hidden_tags Demo.hello_soup) Demo.hello_soup
    = [ Element (py "html") [ Element (py "body") [Text (py "Hello"); Gone] ] ]
  ∧ join (py " ") (split (visible_text Demo.html_parser Demo.hello_page))
    = py "Hello".
Proof. vm_compute. done. Qed.

Example decompose_each_ex :
  let soup := Demo.notice_soup in
  get_text (py " ") soup = py "Read Enable  scripts  on"
  ∧ find_all hidden_tags soup = [[0; 1]; [0; 1; 1]]%nat
  ∧ decompose_each (find_all hidden_tags soup) soup
    = [ Element (py "p") [Text (py "Read"); Gone; Text (py " on")] ]
  ∧ get_text (py " ") (decompose_each (find_all hidden_tags soup) soup)
    = py "Read  on"
  ∧ join (py " ")
      (split (get_text (py " ") (decompose_each (find_all hidden_tags soup) soup)))
    = py "Read on".
Proof. vm_compute. done. Qed.

Example scrape_links_ex :
  fst (Demo.scrape_links [py "http://a.test"; py "http://b.test"]
         (Demo.world ∅ None))
  = Ok [Failed (py "http://a.test") (py "timed out");
        Fetched (py "http://b.test") (py "Hello")].
Proof. vm_compute. reflexivity. Qed.

Example no_secrets_file_ex :
  Demo.create_quiz (py "Use inhaled steroids.") default_focus 3 [] (PyStr [])
    Demo.world_without_secrets
  = (Raise Demo.secret_not_found,
     log_event (SecretsGet "JOHAN_AZURE_OPENAI_KEY") Demo.world_without_secrets)
  ∧ log (snd (Demo.on_generate_quiz Demo.ui_empty [py "Use inhaled steroids."]
               Demo.world_without_secrets))
    = [ SecretsGet "JOHAN_AZURE_OPENAI_KEY"; StError (py "No secrets found.") ].
Proof. vm_compute. done. Qed.

Example page_ex :
  log (snd (Demo.page Demo.ui (Demo.world Demo.configured (Some Demo.asthma))))
  = [ StImage (py "im-logo-white-text.png"); StTitle (py "IM Quizzer");
      StDivider; StMarkdown html_heading; StDivider;
      StSubheader subheader_select; StDivider; StMarkdown html_generate;
      HttpGet (py "http://a.test") user_agent 20;
      HttpGet (py "http://b.test") user_agent 20;
      StWarning msg_scrape_warning ]
    ++ secrets_reads
    ++ [ AzureChatOpenAI
           {| azure_deployment := py "gpt-5-chat";
              api_version := py "2024-12-01-preview";
              azure_endpoint := py "https://example.openai.azure.com";
              api_key := py "key" |};
         ChainInvoke
           {| azure_deployment := py "gpt-5-chat";
              api_version := py "2024-12-01-preview";
              azure_endpoint := py "https://example.openai.azure.com";
              api_key := py "key" |}
           {| article := py "Use inhaled steroids." ++ blank_line ++ py "Hello";
              questions := 3; focus := default_focus; lakemedel := [];
              link_text := PyList [py "Hello"] |};
         StDivider; StMarkdown (py "## Quiz") ].
Proof. vm_compute. reflexivity. Qed.

(** ** Facts about the string functions *)

Section StrFacts.

Implicit Types (s t a b : str) (c : N).

Lemma lstrip_blank s : forallb isspace s = true → lstrip s = [].
Proof.
  induction s as [|c s IH]; simpl; [done|].
  intros [Hc Hs]%andb_prop. rewrite Hc. auto.
Qed.

Lemma lstrip_nil_blank s : lstrip s = [] → forallb isspace s = true.
Proof.
  induction s as [|c s IH]; simpl; [done|].
  destruct (isspace c); [auto | discriminate].
Qed.

Lemma lstrip_head s c r : lstrip s = c :: r → isspace c = false.
Proof.
  induction s as [|x s IH]; simpl; [discriminate|].
  destruct (isspace x) eqn:Hx; [auto|]. intros [= -> _]. done.
Qed.

Lemma lstrip_nonspace c s : isspace c = false → lstrip (c :: s) = c :: s.
Proof. simpl. by intros ->. Qed.

Lemma lstrip_decomp s : ∃ pre, s = pre ++ lstrip s ∧ forallb isspace pre = true.
Proof.
  induction s as [|c s (pre & Hs & Hpre)]; [by exists []|].
  simpl. destruct (isspace c) eqn:Hc.
  - exists (c :: pre). simpl. rewrite Hc, Hpre. by rewrite <- Hs.
  - by exists [].
Qed.

Lemma lstrip_idem s : lstrip (lstrip s) = lstrip s.
Proof.
  destruct (lstrip s) as [|c r] eqn:E; [done|].
  apply lstrip_nonspace. eauto using lstrip_head.
Qed.

(** Stripping on the left keeps an occurrence that starts with a
    non-whitespace character. *)
Lemma lstrip_keeps a c t b :
  isspace c = false → ∃ a', lstrip (a ++ (c :: t) ++ b) = a' ++ (c :: t) ++ b.
Proof.
  intros Hc. induction a as [|x a [a' IH]].
  - exists []. simpl. by rewrite Hc.
  - simpl. destruct (isspace x).
    + exists a'. exact IH.
    + by exists (x :: a).
Qed.

Lemma forallb_rev (f : N → bool) s : forallb f (rev s) = forallb f s.
Proof.
  induction s as [|c s IH]; [done|]. simpl.
  rewrite forallb_app, IH. simpl. rewrite andb_true_r. apply andb_comm.
Qed.

Lemma rstrip_decomp s : ∃ post, s = rstrip s ++ post ∧ forallb isspace post = true.
Proof.
  unfold rstrip. destruct (lstrip_decomp (rev s)) as (pre & Hs & Hpre).
  exists (rev pre). split; [|by rewrite forallb_rev].
  rewrite <- rev_app_distr, <- Hs. by rewrite rev_involutive.
Qed.

Lemma rstrip_blank s : forallb isspace s = true → rstrip s = [].
Proof.
  intros H. unfold rstrip. rewrite lstrip_blank; [done|]. by rewrite forallb_rev.
Qed.

Lemma rstrip_nil_blank s : rstrip s = [] → forallb isspace s = true.
Proof.
  unfold rstrip. intros H.
  assert (lstrip (rev s) = []) as H'.
  { rewrite <- (rev_involutive (lstrip (rev s))). by rewrite H. }
  apply lstrip_nil_blank in H'. by rewrite forallb_rev in H'.
Qed.

(** [s.strip()] is empty exactly when [s] is empty or whitespace only. *)
Lemma strip_nil_iff s : strip s = [] ↔ forallb isspace s = true.
Proof.
  unfold strip. split.
  - intros H%rstrip_nil_blank.
    destruct (lstrip_decomp s) as (pre & Hs & Hpre).
    rewrite Hs, forallb_app, Hpre, H. done.
  - intros H. rewrite (lstrip_blank s H). done.
Qed.

Lemma nonempty_strip s : nonempty (strip s) = negb (forallb isspace s).
Proof.
  destruct (forallb isspace s) eqn:E.
  - apply strip_nil_iff in E. by rewrite E.
  - destruct (strip s) eqn:E'; [|done].
    apply strip_nil_iff in E'. congruence.
Qed.

Lemma rstrip_last s r c : rstrip s = r ++ [c] → isspace c = false.
Proof.
  unfold rstrip. intros H.
  assert (lstrip (rev s) = c :: rev r) as H'.
  { rewrite <- (rev_involutive (lstrip (rev s))), H, rev_app_distr. done. }
  eauto using lstrip_head.
Qed.

Lemma rstrip_keeps a t c b :
  isspace c = false → ∃ b', rstrip (a ++ (t ++ [c]) ++ b) = a ++ (t ++ [c]) ++ b'.
Proof.
  intros Hc. unfold rstrip.
  assert (rev (a ++ (t ++ [c]) ++ b) = rev b ++ (c :: rev t) ++ rev a) as ->.
  { rewrite !rev_app_distr. simpl. by rewrite <- !app_assoc. }
  destruct (lstrip_keeps (rev b) c (rev t) (rev a) Hc) as [b' ->].
  exists (rev b').
  rewrite !rev_app_distr. simpl. rewrite !rev_involutive.
  by rewrite <- !app_assoc.
Qed.

Lemma rstrip_head_nonspace c s :
  isspace c = false → ∃ r, rstrip (c :: s) = c :: r.
Proof.
  intros Hc. destruct (rstrip_keeps [] [] c s Hc) as [b' Hb'].
  simpl in Hb'. eauto.
Qed.

Lemma strip_head s c r : strip s = c :: r → isspace c = false.
Proof.
  unfold strip. intros H.
  destruct (lstrip s) as [|x l] eqn:E; [discriminate|].
  pose proof (lstrip_head _ _ _ E) as Hx.
  destruct (rstrip_head_nonspace x l Hx) as [r' Hr'].
  rewrite Hr' in H. by injection H as -> _.
Qed.

Lemma strip_last s r c : strip s = r ++ [c] → isspace c = false.
Proof. unfold strip. apply rstrip_last. Qed.

Lemma strip_tight s : tight (strip s).
Proof. split; intros; eauto using strip_head, strip_last. Qed.

Lemma tight_strip s : tight s → strip s = s.
Proof.
  intros [Hh Hl]. destruct s as [|c s]; [done|].
  unfold strip. rewrite lstrip_nonspace by eauto.
  destruct (rstrip_decomp (c :: s)) as (post & Hs & Hpost).
  destruct post as [|p post _] using rev_ind; [by rewrite app_nil_r in Hs|].
  rewrite forallb_app in Hpost. simpl in Hpost.
  rewrite app_assoc in Hs. apply Hl in Hs.
  rewrite Hs in Hpost. by rewrite andb_false_r in Hpost.
Qed.

Lemma strip_idem s : strip (strip s) = strip s.
Proof. apply tight_strip, strip_tight. Qed.

(** Stripping keeps every occurrence of a tight string. *)
Lemma strip_keeps a t b : tight t → substring t (strip (a ++ t ++ b)).
Proof.
  intros [Hh Hl]. destruct t as [|c t].
  { exists [], (strip (a ++ [] ++ b)). done. }
  assert (∃ t' d, c :: t = t' ++ [d]) as (t' & d & Ht).
  { destruct (@exists_last _ (c :: t)) as (t' & d & Ht); [done|]. eauto. }
  unfold strip.
  destruct (lstrip_keeps a c t b (Hh _ _ eq_refl)) as [a' ->].
  rewrite Ht.
  destruct (rstrip_keeps a' t' d b (Hl _ _ Ht)) as [b' ->].
  by exists a', b'.
Qed.

Lemma substring_join sep t parts : t ∈ parts → substring t (join sep parts).
Proof.
  induction parts as [|p ps IH]; [by intros ?%elem_of_nil|].
  intros [->|Hin]%elem_of_cons.
  - destruct ps as [|q ps]; simpl.
    + exists [], []. by rewrite app_nil_r.
    + exists [], (sep ++ join sep (q :: ps)). done.
  - destruct (IH Hin) as (pre & post & E).
    destruct ps as [|q ps]; [by apply elem_of_nil in Hin|].
    exists (p ++ sep ++ pre), post.
    change (join sep (p :: q :: ps)) with (p ++ sep ++ join sep (q :: ps)).
    rewrite E. by rewrite <- !app_assoc.
Qed.

(** *** [" ".join(s.split())] *)

Lemma split_from_words word s :
  Forall (λ c, isspace c = false) word → Forall is_word (split_from word s).
Proof.
  revert word. induction s as [|c s IH]; intros word Hw; simpl.
  - destruct word; simpl; [constructor|].
    constructor; [by split|constructor].
  - destruct (isspace c) eqn:Hc.
    + destruct word; simpl; [by apply IH|].
      constructor; [by split|]. by apply IH.
    + apply IH. apply Forall_app. split; [done|]. by repeat constructor.
Qed.

Lemma split_words s : Forall is_word (split s).
Proof. by apply split_from_words. Qed.



Lemma join_words_head ws c r :
  Forall is_word ws → join (py " ") ws = c :: r → isspace c = false.
Proof.
  intros Hws. destruct Hws as [|w ws [Hne Hw] Hws]; [done|].
  destruct w as [|x w]; [done|]. apply Forall_cons in Hw as [Hx _].
  destruct ws; simpl; by intros [= <- _].
Qed.

Lemma join_words_last ws r c :
  Forall is_word ws → join (py " ") ws = r ++ [c] → isspace c = false.
Proof.
  intros Hws. revert r. induction Hws as [|w ws [Hne Hw] Hws IH]; intros r.
  { by destruct r. }
  destruct ws as [|w' ws].
  - simpl. intros ->. apply Forall_app in Hw as [_ Hc].
    by apply Forall_cons in Hc as [? _].
  - change (join (py " ") (w :: w' :: ws))
      with (w ++ 32 :: join (py " ") (w' :: ws)).
    destruct (@exists_last _ (join (py " ") (w' :: ws))) as (r' & d & E).
    { apply Forall_cons in Hws as [[Hne' _] _].
      destruct w'; [done|]. by destruct ws. }
    rewrite E. intros H.
    assert (d = c) as <-.
    { change (w ++ 32 :: r' ++ [d]) with (w ++ (32 :: r') ++ [d]) in H.
      rewrite app_assoc in H. by apply app_inj_tail in H as [_ ?]. }
    by apply (IH r').
Qed.

Lemma join_words_tight ws : Forall is_word ws → tight (join (py " ") ws).
Proof. split; intros; eauto using join_words_head, join_words_last. Qed.



End StrFacts.

(** ** Facts about [sorted], [unique] and sets *)

Section SortFacts.

Implicit Types (a b c : str) (xs : list str).

Lemma str_leb_refl a : str_leb a a = true.
Proof. induction a as [|x a IH]; [done|]. simpl. by rewrite N.ltb_irrefl. Qed.

Lemma str_leb_total a b : str_leb a b = true ∨ str_leb b a = true.
Proof.
  revert b. induction a as [|x a IH]; intros [|y b]; simpl; auto.
  destruct (N.ltb_spec x y), (N.ltb_spec y x); auto; lia.
Qed.

Lemma str_leb_antisym a b : str_leb a b = true → str_leb b a = true → a = b.
Proof.
  revert b. induction a as [|x a IH]; intros [|y b]; simpl; try done.
  destruct (N.ltb_spec x y), (N.ltb_spec y x); try done; try lia.
  intros. assert (x = y) as -> by lia. f_equal. auto.
Qed.

Lemma str_leb_trans a b c :
  str_leb a b = true → str_leb b c = true → str_leb a c = true.
Proof.
  revert b c. induction a as [|x a IH]; intros [|y b] [|z c]; simpl; try done.
  destruct (N.ltb_spec x y), (N.ltb_spec y x), (N.ltb_spec y z),
    (N.ltb_spec z y), (N.ltb_spec x z), (N.ltb_spec z x);
    try done; try lia; eauto.
Qed.

#[global] Instance str_le_total : Total str_le.
Proof. intros a b. apply str_leb_total. Qed.
#[global] Instance str_le_trans : Transitive str_le.
Proof. intros a b c. apply str_leb_trans. Qed.
#[global] Instance str_le_antisym : AntiSymm (=) str_le.
Proof. intros a b. apply str_leb_antisym. Qed.

Lemma sorted_elem_of xs x : x ∈ sorted xs ↔ x ∈ xs.
Proof. unfold sorted. by rewrite merge_sort_Permutation. Qed.

Lemma sorted_NoDup xs : NoDup xs → NoDup (sorted xs).
Proof. unfold sorted. by rewrite merge_sort_Permutation. Qed.

Lemma StronglySorted_strict xs :
  StronglySorted str_le xs → NoDup xs → StronglySorted str_lt xs.
Proof.
  induction 1 as [|x xs Hs IH Hx]; intros Hnd; [constructor|].
  apply NoDup_cons in Hnd as [Hnin Hnd]. constructor; [auto|].
  rewrite Forall_forall in Hx |- *. intros y Hy. split; [auto|].
  intros ->. done.
Qed.

Lemma sorted_strict xs : NoDup xs → StronglySorted str_lt (sorted xs).
Proof.
  intros Hnd. apply StronglySorted_strict; [|by apply sorted_NoDup].
  apply StronglySorted_merge_sort; apply _.
Qed.

Lemma unique_from_elem_of seen xs x :
  x ∈ unique_from seen xs ↔ x ∈ xs ∧ x ∉ seen.
Proof.
  revert seen. induction xs as [|y xs IH]; intros seen; simpl.
  { rewrite elem_of_nil. tauto. }
  case_bool_decide as Hy.
  - rewrite IH, elem_of_cons. split; [tauto|].
    intros [[->|?] ?]; [done|tauto].
  - rewrite !elem_of_cons, IH, elem_of_cons.
    destruct (decide (x = y)) as [->|?]; tauto.
Qed.

Lemma unique_from_NoDup seen xs : NoDup (unique_from seen xs).
Proof.
  revert seen. induction xs as [|y xs IH]; intros seen; simpl; [constructor|].
  case_bool_decide; [done|]. constructor; [|done].
  rewrite unique_from_elem_of, elem_of_cons. tauto.
Qed.

Lemma unique_elem_of xs x : x ∈ unique xs ↔ x ∈ xs.
Proof. unfold unique. rewrite unique_from_elem_of, elem_of_nil. tauto. Qed.

Lemma unique_NoDup xs : NoDup (unique xs).
Proof. apply unique_from_NoDup. Qed.

Lemma set_of_elem_of xs x : x ∈ elements (set_of xs) ↔ x ∈ xs.
Proof. unfold set_of. by rewrite elem_of_elements, elem_of_list_to_set. Qed.

Lemma set_of_NoDup xs : NoDup (elements (set_of xs)).
Proof. apply NoDup_elements. Qed.

End SortFacts.

(** ** The selection filter *)

Section SelectionFacts.

Implicit Types (rows : list Row) (r : Row).

Lemma isin_true v values :
  isin v values = true ↔ ∃ t, v = Some t ∧ t ∈ values.
Proof.
  destruct v as [t|]; simpl.
  - rewrite bool_decide_eq_true. split; [eauto|]. by intros (? & [= <-] & ?).
  - split; [done|]. by intros (? & ? & ?).
Qed.

Lemma truthy_true v : truthy v = true ↔ ∃ t, v = Some t ∧ t ≠ [].
Proof.
  destruct v as [[|c t]|]; simpl; split; try done; eauto.
  - by intros (? & [= <-] & ?).
  - by intros (? & ? & ?).
Qed.

Lemma some_values_elem_of (cells : list (option str)) t :
  t ∈ some_values cells ↔ Some t ∈ cells.
Proof.
  unfold some_values. rewrite list_elem_of_omap. split.
  - by intros ([?|] & ? & [= ->]).
  - intros ?. by exists (Some t).
Qed.

Lemma pandas_titles_elem_of rows t :
  t ∈ Pandas.titles rows ↔ ∃ r, r ∈ rows ∧ title r = Some t.
Proof.
  unfold Pandas.titles.
  rewrite sorted_elem_of, unique_elem_of, some_values_elem_of.
  rewrite list_elem_of_In, in_map_iff.
  setoid_rewrite <- list_elem_of_In. split; intros (r & ? & ?); eauto.
Qed.

Lemma csv_titles_elem_of rows t :
  t ∈ Csv.titles rows ↔ ∃ r, r ∈ rows ∧ title r = Some t ∧ t ≠ [].
Proof.
  unfold Csv.titles.
  rewrite sorted_elem_of, set_of_elem_of, some_values_elem_of.
  rewrite list_elem_of_In, in_map_iff.
  setoid_rewrite filter_In. setoid_rewrite <- list_elem_of_In.
  setoid_rewrite truthy_true. split.
  - intros (r & Ht & Hr & t' & Ht' & Hne). exists r.
    rewrite Ht in Ht'. injection Ht' as <-. done.
  - intros (r & Hr & Ht & Hne). exists r. eauto.
Qed.

Lemma pandas_labels_elem_of rows selected_titles x :
  x ∈ Pandas.section_labels rows selected_titles ↔
  ∃ r t s, r ∈ rows ∧ title r = Some t ∧ t ∈ selected_titles
           ∧ section_title r = Some s ∧ x = t ++ sep_label ++ s.
Proof.
  unfold Pandas.section_labels, Pandas.filtered.
  rewrite sorted_elem_of, unique_elem_of, map_map. simpl.
  rewrite list_elem_of_In, in_map_iff.
  setoid_rewrite filter_In. setoid_rewrite filter_In.
  setoid_rewrite <- list_elem_of_In. setoid_rewrite isin_true. split.
  - intros (r & <- & (Hr & t & Ht & Hsel) & Hna). exists r, t.
    rewrite Ht in *. destruct (section_title r) as [s|] eqn:Hs; [|done].
    exists s. done.
  - intros (r & t & s & Hr & Ht & Hsel & Hs & ->). exists r.
    rewrite Ht, Hs. simpl. eauto 10.
Qed.

Lemma csv_labels_elem_of rows selected_titles x :
  x ∈ Csv.section_labels rows selected_titles ↔
  ∃ r t s, r ∈ rows ∧ title r = Some t ∧ t ∈ selected_titles ∧ t ≠ []
           ∧ section_title r = Some s ∧ s ≠ [] ∧ x = t ++ sep_label ++ s.
Proof.
  unfold Csv.section_labels, Csv.filtered, Csv.label.
  rewrite sorted_elem_of, set_of_elem_of.
  rewrite list_elem_of_In, in_map_iff.
  setoid_rewrite filter_In. setoid_rewrite filter_In.
  setoid_rewrite <- list_elem_of_In. setoid_rewrite isin_true.
  setoid_rewrite andb_true_iff. setoid_rewrite truthy_true. split.
  - intros (r & <- & (Hr & t & Ht & Hsel) & (t' & Ht' & Hne) & s & Hs & Hsne).
    rewrite Ht in Ht'. injection Ht' as <-.
    exists r, t, s. rewrite Ht, Hs. done.
  - intros (r & t & s & Hr & Ht & Hsel & Hne & Hs & Hsne & ->). exists r.
    rewrite Ht, Hs. simpl. eauto 15.
Qed.

Lemma frame_cells_ok_section_title rows r s :
  frame_cells_ok (DataFrame rows) = true → r ∈ rows →
  section_title r = Some s → s ≠ [].
Proof.
  simpl. rewrite forallb_forall. intros Hok Hr%list_elem_of_In Hs ->.
  apply Hok in Hr. rewrite Hs in Hr. simpl in Hr.
  by rewrite andb_false_r in Hr.
Qed.

End SelectionFacts.

(** C5. Whatever branch the page takes, for titles selected among those
    offered, the options of the section widget are exactly the labels
    ["{title} - {section_title}"] of the records whose title is selected and
    whose section title is non-empty, each once, in increasing lexicographic
    order. (The selection may also be empty: the label set is then empty.) *)
Theorem section_labels_are_label_set (pd : bool) (data : Dataset)
    (selected_titles : list str) :
  frame_cells_ok data = true →
  selected_titles ⊆ page_titles pd data →
  is_label_set (page_section_labels pd data selected_titles) (rows_of data)
               selected_titles.
Proof.
  intros Hok Hsel. unfold page_section_labels, page_titles in *.
  destruct (uses_pandas pd data) eqn:Hpd.
  - assert (∃ rows, data = DataFrame rows) as [rows ->].
    { unfold uses_pandas in Hpd. destruct data, pd; try done; eauto. }
    simpl. repeat split.
    + apply sorted_strict, unique_NoDup.
    + apply sorted_NoDup, unique_NoDup.
    + intros (r & t & s & Hr & Ht & Ht' & Hs & ->)%pandas_labels_elem_of.
      exists r, t, s. eauto 10 using frame_cells_ok_section_title.
    + intros (r & t & s & Hr & Ht & Ht' & Hs & Hne & ->).
      apply pandas_labels_elem_of. exists r, t, s. eauto 10.
  - repeat split.
    + apply sorted_strict, set_of_NoDup.
    + apply sorted_NoDup, set_of_NoDup.
    + intros (r & t & s & Hr & Ht & Ht' & Hne & Hs & Hsne & ->)%csv_labels_elem_of.
      exists r, t, s. eauto 10.
    + intros (r & t & s & Hr & Ht & Ht' & Hs & Hne & ->).
      apply csv_labels_elem_of. exists r, t, s.
      pose proof (Hsel _ Ht') as (? & ? & ? & ?)%csv_titles_elem_of.
      repeat split; done.
Qed.

Section GatherFacts.

Implicit Types (rows : list Row) (r : Row).

Lemma flat_map_ext_in {A B} (f g : A → list B) (l : list A) :
  (∀ x, x ∈ l → f x = g x) → flat_map f l = flat_map g l.
Proof.
  induction l as [|x l IH]; intros H; [done|]. simpl.
  rewrite (H x) by left. rewrite IH; [done|].
  intros y Hy. apply H. by right.
Qed.

(** The pandas branch, one label at a time. *)
Lemma pandas_texts_for_label rows (selected_titles selected_sections : list str)
    (section_label : str) :
  frame_cells_ok (DataFrame rows) = true →
  section_label ∈ selected_sections →
  some_values
    (map (λ rl : Row * str, section_text (fst rl))
       (List.filter (λ rl : Row * str, bool_decide (snd rl = section_label))
          (List.filter (λ rl : Row * str, bool_decide (snd rl ∈ selected_sections))
             (Pandas.filtered rows selected_titles))))
  = matching_texts rows selected_titles section_label.
Proof.
  intros Hok Hin. unfold Pandas.filtered, matching_texts, matching_texts_all.
  simpl in Hok. induction rows as [|r rows IH]; [done|].
  simpl in Hok. apply andb_prop in Hok as [Hr Hok]. specialize (IH Hok).
  destruct r as [[t|] [s|] [x|]]; simpl in *;
    unfold matches; simpl; try done;
    repeat (case_bool_decide; simpl; try done);
    try (destruct s as [|c s]; simpl in *; try done);
    try (destruct x as [|d x]; simpl in *; try done);
    repeat (case_bool_decide; simpl; try done);
    subst; try done; try (by f_equal);
    by rewrite ?andb_false_r in Hr.
Qed.

(** The csv branch, one label at a time. *)
Lemma csv_texts_for_label rows (selected_titles selected_sections : list str)
    (section_label : str) :
  no_untitled_match rows selected_titles selected_sections = true →
  section_label ∈ selected_sections →
  map fmt
    (map (λ r, section_text r)
       (List.filter
          (λ r, truthy (section_text r)
                && bool_decide (Csv.label r = section_label))
          (Csv.filtered rows selected_titles)))
  = matching_texts rows selected_titles section_label.
Proof.
  intros Hno Hin. unfold Csv.filtered, matching_texts, matching_texts_all.
  induction rows as [|r rows IH]; [done|].
  simpl in Hno. apply andb_prop in Hno as [Hr Hno]. specialize (IH Hno).
  assert (isin (title r) selected_titles = true →
          truthy (section_title r) = false →
          Csv.label r ∉ selected_sections) as Hr'.
  { intros E1 E2. rewrite E1, E2 in Hr. simpl in Hr.
    by apply negb_true_iff, bool_decide_eq_false in Hr. }
  clear Hr Hno. rename Hr' into Hr.
  unfold Csv.label in *.
  destruct r as [[t|] [[|c s]|] [[|d x]|]]; simpl in *;
    unfold matches; simpl; try done;
    repeat (case_bool_decide; simpl in *; try done);
    subst; try done; try (by f_equal);
    try (by exfalso; apply Hr).
Qed.

End GatherFacts.

(** C4, as the code has it. For each selected label, in the order of the
    selection, the gathered texts are the non-empty section texts of the
    matching records, in dataset order, and nothing else; [article_text] is
    their join with a blank line, trimmed. In the csv branch this is stated for
    datasets in which no record without a section title formats to a selected
    label. *)
Theorem article_text_of_selection (pd : bool) (data : Dataset)
    (selected_titles selected_sections : list str) :
  frame_cells_ok data = true →
  (uses_pandas pd data = false →
   no_untitled_match (rows_of data) selected_titles selected_sections = true) →
  page_section_text_output pd data selected_titles selected_sections
  = flat_map (matching_texts (rows_of data) selected_titles) selected_sections
  ∧ strip (join blank_line
      (page_section_text_output pd data selected_titles selected_sections))
    = article_text_nonempty (rows_of data) selected_titles selected_sections.
Proof.
  intros Hok Hno.
  assert (page_section_text_output pd data selected_titles selected_sections
          = flat_map (matching_texts (rows_of data) selected_titles)
              selected_sections) as E.
  { unfold page_section_text_output.
    destruct (uses_pandas pd data) eqn:Hpd.
    - assert (∃ rows, data = DataFrame rows) as [rows ->].
      { unfold uses_pandas in Hpd. destruct data, pd; try done; eauto. }
      apply flat_map_ext_in. intros lbl Hlbl.
      by apply pandas_texts_for_label.
    - apply flat_map_ext_in. intros lbl Hlbl.
      apply csv_texts_for_label with selected_sections; auto. }
  split; [exact E|]. unfold article_text_nonempty. by rewrite E.
Qed.

(** ** The parsed page *)

Section SoupFacts.

Implicit Types (names : list str) (n : Node) (soup nodes : list Node)
  (p : Path) (tags : list Path).

















End SoupFacts.

(** ** The web fetcher *)

Section FetchFacts.

Context {Net CsvFile : Type}.
Variable requests_get : str → Net → Outcome Response * Net.
Variable html_parser : str → list Node.

Abbreviation World := (World Net CsvFile).
Abbreviation scrape_loop := (@scrape_loop Net CsvFile requests_get html_parser).
Abbreviation scrape_links := (@scrape_links Net CsvFile requests_get html_parser).
Abbreviation item_for := (item_for html_parser).
Abbreviation visible_text := (visible_text html_parser).

Implicit Types (w : World) (links : list str) (results : list FetchResult).

(** One pass of the loop: the request is logged and made, one item is
    appended, and the loop goes on whatever the outcome. *)
Lemma scrape_loop_step link links results w :
  scrape_loop (link :: links) results w
  = scrape_loop links
      (results ++ [item_for link (requests_get link (net w)).1])
      (set_net (requests_get link (net w)).2
         (log_event (HttpGet link user_agent 20) w)).
Proof.
  simpl. unfold bind at 1, try_except, bind, scrape_one, bind, emit, with_net.
  simpl. destruct (requests_get link (net w)) as [[response|exc] n]; simpl; [|done].
  unfold raise_for_status.
  by destruct ((400 <=? status_code response) && (status_code response <? 600))%Z.
Qed.

Lemma item_for_url link got : url_of (item_for link got) = link.
Proof.
  destruct got as [response|exc]; simpl; [|done].
  by destruct ((400 <=? status_code response) && (status_code response <? 600))%Z.
Qed.

Lemma item_for_tight link got text :
  item_for link got = Fetched link text → tight text.
Proof.
  destruct got as [response|exc]; simpl; [|done].
  destruct ((400 <=? status_code response) && (status_code response <? 600))%Z;
    [done|].
  intros [= <-]. apply join_words_tight, split_words.
Qed.

Lemma scrape_loop_spec links results w :
  ∃ new w',
    scrape_loop links results w = (Ok (results ++ new), w')
    ∧ map url_of new = links
    ∧ Forall (λ item, ∀ url text, item = Fetched url text → tight text) new
    ∧ log w' = log w ++ http_gets links
    ∧ secrets w' = secrets w ∧ treatments_csv w' = treatments_csv w
    ∧ pd w' = pd w.
Proof.
  revert results w. induction links as [|link links IH]; intros results w.
  - exists [], w. simpl. by rewrite !app_nil_r.
  - rewrite scrape_loop_step.
    set (item := item_for link (requests_get link (net w)).1).
    set (w1 := set_net _ _).
    destruct (IH (results ++ [item]) w1) as (new & w' & -> & Hurl & Htight & Hlog & ? & ? & ?).
    exists (item :: new), w'. rewrite <- app_assoc. simpl.
    repeat split; try done.
    + rewrite Hurl. f_equal. apply item_for_url.
    + constructor; [|done]. intros url text E.
      assert (url = link) as ->.
      { rewrite <- (item_for_url link (requests_get link (net w)).1).
        fold item. by rewrite E. }
      by apply item_for_tight in E.
    + rewrite Hlog. simpl. by rewrite <- app_assoc.
Qed.

Lemma scrape_loop_app links1 links2 results w results1 w1 :
  scrape_loop links1 results w = (Ok results1, w1) →
  scrape_loop (links1 ++ links2) results w = scrape_loop links2 results1 w1.
Proof.
  revert results w. induction links1 as [|link links1 IH]; intros results w.
  - simpl. by intros [= -> ->].
  - rewrite <- app_comm_cons, !scrape_loop_step. apply IH.
Qed.

(** C2. A batch of N links gives N items, the i-th carrying the i-th link
    and holding either a text or an error; the call returns normally, and
    every link has been requested, in order, whatever the earlier requests
    did. *)
Theorem scrape_links_one_result_per_link links w :
  ∃ results w',
    scrape_links links w = (Ok results, w')
    ∧ length results = length links
    ∧ map url_of results = links
    ∧ Forall2 (λ link item, (∃ text, item = Fetched link text)
                             ∨ (∃ error, item = Failed link error))
        links results
    ∧ log w' = log w ++ http_gets links.
Proof.
  destruct (scrape_loop_spec links [] w)
    as (results & w' & E & Hurl & _ & Hlog & _).
  exists results, w'. repeat split; try done.
  - rewrite <- Hurl. by rewrite length_map.
  - rewrite <- Hurl. clear. induction results as [|item results IH]; simpl;
      constructor; [|done].
    destruct item; simpl; eauto.
Qed.


End FetchFacts.

(** ** The quiz generator and the orchestrator *)

Section QuizFacts.

Context {Net CsvFile : Type}.
Variable requests_get : str → Net → Outcome Response * Net.
Variable html_parser : str → list Node.
Variable azure_chat_openai : LlmConfig → Outcome unit.
Variable chain_invoke : LlmConfig → Inputs → Net → Outcome str * Net.

Abbreviation World := (World Net CsvFile).
Abbreviation create_quiz :=
  (@create_quiz Net CsvFile azure_chat_openai chain_invoke).
Abbreviation scrape_links := (@scrape_links Net CsvFile requests_get html_parser).
Abbreviation gather_article :=
  (@gather_article Net CsvFile requests_get html_parser).
Abbreviation submit_article :=
  (@submit_article Net CsvFile azure_chat_openai chain_invoke).
Abbreviation on_generate_quiz :=
  (@on_generate_quiz Net CsvFile requests_get html_parser azure_chat_openai
     chain_invoke).

Implicit Types (w : World) (ui : UserInput).

Lemma reads_made_quiet s :
  Forall (λ e, completion_event e = false ∧ network_event e = false)
    (reads_made s)
  ∧ Forall (λ e, is_http_get e = false) (reads_made s)
  ∧ sent_inputs (reads_made s) = [].
Proof. destruct s; repeat split; by repeat constructor. Qed.

(** What [create_quiz] does, case by case. Its events are the reads of the
    secrets, then the construction of the client, then the call. *)
Lemma create_quiz_spec article focus questions lakemedel link_text w :
  let inputs := {| article := article; questions := questions; focus := focus;
                   lakemedel := lakemedel; link_text := link_text |} in
  ∃ r w' evs,
    create_quiz article focus questions lakemedel link_text w = (r, w')
    ∧ log w' = log w ++ reads_made (secrets w) ++ evs
    ∧ secrets w' = secrets w
    ∧ (if negb (truthy (secrets w !! "JOHAN_AZURE_OPENAI_KEY"))
          || negb (truthy (secrets w !! "JOHAN_AZURE_OPENAI_ENDPOINT"))
       then evs = [] ∧ net w' = net w
            ∧ r = Raise (missing_credentials_error (secrets w))
       else ∃ cfg, evs = [AzureChatOpenAI cfg]
                   ∨ evs = [AzureChatOpenAI cfg; ChainInvoke cfg inputs]).
Proof.
  intros inputs. destruct w as [n [entries|store_exc] file pd l].
  2: { eexists _, _, []. split; [reflexivity|]. done. }
  unfold create_quiz, bind, secrets_get_default,
    secrets_get, bind, emit, ret. simpl.
  unfold lookup, secrets_lookup. cbv beta iota.
  destruct (negb (truthy (gmap_lookup "JOHAN_AZURE_OPENAI_KEY" entries))
            || negb (truthy (gmap_lookup "JOHAN_AZURE_OPENAI_ENDPOINT" entries)))
    eqn:Hkey.
  - unfold raise. eexists _, _, []. split; [reflexivity|]. simpl.
    split; [by rewrite <- !app_assoc|]. done.
  - unfold of_outcome, with_net. simpl.
    match goal with |- context [azure_chat_openai ?c] => set (cfg := c) end.
    destruct (azure_chat_openai cfg) as [[]|exc].
    + destruct (chain_invoke cfg inputs n) as [r n2] eqn:Hcall.
      fold inputs. rewrite Hcall.
      eexists _, _, [AzureChatOpenAI cfg; ChainInvoke cfg inputs].
      split; [reflexivity|]. simpl.
      split; [by rewrite <- !app_assoc|]. eauto.
    + eexists _, _, [AzureChatOpenAI cfg]. split; [reflexivity|]. simpl.
      split; [by rewrite <- !app_assoc|]. eauto.
Qed.

(** The second half of the handler on a non-empty article: it always returns
    normally; it reads the secrets, may build the client and call it once with
    the inputs below, and then shows either an error or the quiz. *)
Lemma submit_article_spec ui article_text links scraped_texts w :
  article_text ≠ [] →
  let inputs :=
    {| article := article_text; questions := questions_slider ui;
       focus := if nonempty (prompt_text ui) then prompt_text ui else default_focus;
       lakemedel := lakemedel_text ui;
       link_text := if bool_decide (links ≠ []) then PyList scraped_texts
                    else PyStr [] |} in
  ∃ w' evs shown,
    submit_article ui article_text links scraped_texts w = (Ok tt, w')
    ∧ log w' = log w ++ reads_made (secrets w) ++ evs ++ shown
    ∧ ((∃ msg, shown = [StError msg])
       ∨ (∃ quiz, shown = [StDivider; StMarkdown quiz]))
    ∧ (if negb (truthy (secrets w !! "JOHAN_AZURE_OPENAI_KEY"))
          || negb (truthy (secrets w !! "JOHAN_AZURE_OPENAI_ENDPOINT"))
       then evs = [] ∧ net w' = net w
            ∧ shown = [StError (exn_str (missing_credentials_error (secrets w)))]
       else ∃ cfg, evs = [AzureChatOpenAI cfg]
                   ∨ evs = [AzureChatOpenAI cfg; ChainInvoke cfg inputs]).
Proof.
  intros Hne inputs. unfold submit_article.
  destruct article_text as [|c article_text]; [done|].
  change (negb (nonempty (c :: article_text))) with false. cbv iota.
  unfold try_except, bind at 1.
  destruct (create_quiz_spec (c :: article_text)
              (if nonempty (prompt_text ui) then prompt_text ui else default_focus)
              (questions_slider ui) (lakemedel_text ui)
              (if bool_decide (links ≠ []) then PyList scraped_texts else PyStr [])
              w)
    as (r & w' & evs & E & Hlog & Hsec & Hcase).
  cbv beta. rewrite E.
  destruct r as [quiz|exc].
  - eexists _, evs, [StDivider; StMarkdown quiz]. split; [reflexivity|].
    simpl. rewrite Hlog, <- !app_assoc. split; [done|]. split; [eauto|].
    destruct (negb _ || negb _); [|done].
    by destruct Hcase as (_ & _ & ?).
  - eexists _, evs, [StError (exn_str exc)]. split; [reflexivity|].
    simpl. rewrite Hlog, <- !app_assoc. split; [done|]. split; [eauto|].
    destruct (negb _ || negb _); [|done].
    destruct Hcase as (-> & Hnet & [= ->]). done.
Qed.

(** The first half of the handler always returns: the links are scraped, the
    article is the trimmed join of the selection's text and the scraped texts,
    and a warning is shown when a link failed. *)
Lemma gather_article_spec ui section_text_output w :
  let links := links_of (links_text ui) in
  ∃ scraped w1 w2,
    scrape_links links w = (Ok scraped, w1)
    ∧ gather_article ui section_text_output w
      = (Ok (strip (join blank_line
                      (strip (join blank_line section_text_output)
                       :: texts_of scraped)),
             links, texts_of scraped), w2)
    ∧ log w2 = log w ++ http_gets links
               ++ (if bool_decide (List.filter has_error scraped ≠ [])
                   then [StWarning msg_scrape_warning] else [])
    ∧ secrets w2 = secrets w
    ∧ net w2 = net w1
    ∧ Forall tight (texts_of scraped).
Proof.
  intros links. unfold gather_article. fold links.
  destruct (scrape_loop_spec requests_get html_parser links [] w)
    as (scraped & w1 & E & Hurl & Htight & Hlog & Hsec & _).
  simpl in E. exists scraped, w1.
  assert (Forall tight (texts_of scraped)) as Htexts.
  { clear -Htight. induction Htight as [|item scraped Hitem _ IH]; [constructor|].
    destruct item as [url text|url error]; simpl; [|done].
    constructor; [by eapply Hitem|done]. }
  case_bool_decide as Hlinks.
  - unfold bind at 1. unfold scrape_links. rewrite E.
    unfold bind, ret, st_warning, emit.
    case_bool_decide; simpl; eexists; (split; [done|]); (split; [reflexivity|]);
      simpl; rewrite Hlog, ?app_nil_r, <- ?app_assoc; repeat split; try done.
  - exists w. split; [done|].
    assert (scraped = [] ∧ w1 = w) as [-> ->].
    { rewrite Hlinks in E. simpl in E. unfold ret in E. by injection E as <- <-. }
    rewrite Hlinks. simpl. rewrite strip_idem, !app_nil_r. by repeat split.
Qed.

Lemma on_generate_quiz_unfold ui section_text_output w article_text links
    scraped_texts w2 :
  gather_article ui section_text_output w
  = (Ok (article_text, links, scraped_texts), w2) →
  on_generate_quiz ui section_text_output w
  = submit_article ui article_text links scraped_texts w2.
Proof.
  intros E. unfold on_generate_quiz, bind.
  cbv beta. by rewrite E.
Qed.

Lemma http_gets_not_from_create_quiz links :
  Forall (λ e, from_create_quiz e = false) (http_gets links).
Proof. induction links; by constructor. Qed.

Lemma sent_inputs_app evs1 evs2 :
  sent_inputs (evs1 ++ evs2) = sent_inputs evs1 ++ sent_inputs evs2.
Proof. apply omap_app. Qed.

Lemma sent_inputs_http_gets links : sent_inputs (http_gets links) = [].
Proof. induction links; [done|]. simpl. done. Qed.

Lemma elem_of_sent_inputs cfg inputs evs :
  ChainInvoke cfg inputs ∈ evs → inputs ∈ sent_inputs evs.
Proof.
  intros H. unfold sent_inputs. apply list_elem_of_omap.
  by exists (ChainInvoke cfg inputs).
Qed.

(** The handler as a whole: it returns normally, and it calls the completion
    capability at most once, with the article gathered, the focus typed or the
    default one, and the scraped texts in the [link_text] slot. *)
Lemma on_generate_quiz_spec ui section_text_output w :
  let links := links_of (links_text ui) in
  ∃ scraped w1 w' evs,
    scrape_links links w = (Ok scraped, w1)
    ∧ on_generate_quiz ui section_text_output w = (Ok tt, w')
    ∧ log w' = log w ++ evs
    ∧ Forall tight (texts_of scraped)
    ∧ (sent_inputs evs = []
       ∨ sent_inputs evs =
         [ {| article := strip (join blank_line
                          (strip (join blank_line section_text_output)
                           :: texts_of scraped));
              questions := questions_slider ui;
              focus := if nonempty (prompt_text ui) then prompt_text ui
                       else default_focus;
              lakemedel := lakemedel_text ui;
              link_text := if bool_decide (links ≠ [])
                           then PyList (texts_of scraped) else PyStr [] |} ]).
Proof.
  intros links.
  destruct (gather_article_spec ui section_text_output w)
    as (scraped & w1 & w2 & Hscrape & Hgather & Hlog & Hsec & Hnet & Htight).
  fold links in Hscrape, Hgather, Hlog.
  exists scraped, w1. rewrite (on_generate_quiz_unfold _ _ _ _ _ _ _ Hgather).
  clear Hgather.
  remember (strip (join blank_line
              (strip (join blank_line section_text_output) :: texts_of scraped)))
    as text eqn:Htext.
  set (warn := if bool_decide (List.filter has_error scraped ≠ []) then _ else _) in *.
  assert (sent_inputs warn = []) as Hwarn.
  { unfold warn. by case_bool_decide. }
  destruct text as [|c text].
  - exists (log_event (StError msg_selection_empty) w2),
      (http_gets links ++ warn ++ [StError msg_selection_empty]).
    repeat split; try done.
    + simpl. rewrite Hlog. by rewrite <- !app_assoc.
    + left. by rewrite !sent_inputs_app, sent_inputs_http_gets, Hwarn.
  - destruct (submit_article_spec ui (c :: text) links (texts_of scraped)
                w2 ltac:(done))
      as (w' & evs & shown & E & Hlog' & Hshown & Hcase).
    exists w', (http_gets links ++ warn ++ reads_made (secrets w2) ++ evs ++ shown).
    repeat split; try done.
    + rewrite Hlog', Hlog. by rewrite <- !app_assoc.
    + assert (sent_inputs shown = []) as Hs.
      { by destruct Hshown as [[? ->]|[? ->]]. }
      destruct (reads_made_quiet (secrets w2)) as (_ & _ & Hreads).
      rewrite !sent_inputs_app, sent_inputs_http_gets, Hwarn, Hs, Hreads. simpl.
      rewrite app_nil_r.
      destruct (negb _ || negb _).
      * destruct Hcase as (-> & _). by left.
      * destruct Hcase as [cfg [->| ->]]; [by left|by right].
Qed.

(** C1. The first half of the handler always yields the article: the trimmed
    join of the selection's text and the scraped texts. When that article is
    empty or whitespace only, the handler shows the selection-empty error and
    stops: none of its events comes from [create_quiz], so no secret is read,
    no client is built and no completion call is made. *)
Theorem empty_article_is_refused ui section_text_output w :
  ∃ article_text links scraped_texts w1,
    gather_article ui section_text_output w
    = (Ok (article_text, links, scraped_texts), w1)
    ∧ article_text
      = strip (join blank_line
                 (strip (join blank_line section_text_output) :: scraped_texts))
    ∧ (forallb isspace article_text = true →
       ∃ evs,
         on_generate_quiz ui section_text_output w
         = (Ok tt, log_event (StError msg_selection_empty) w1)
         ∧ log (log_event (StError msg_selection_empty) w1)
           = log w ++ evs ++ [StError msg_selection_empty]
         ∧ Forall (λ e, from_create_quiz e = false)
             (evs ++ [StError msg_selection_empty])
         ∧ sent_inputs (evs ++ [StError msg_selection_empty]) = []).
Proof.
  destruct (gather_article_spec ui section_text_output w)
    as (scraped & w1 & w2 & Hscrape & Hgather & Hlog & Hsec & Hnet & Htight).
  eexists _, _, _, w2. split; [exact Hgather|]. split; [done|].
  intros Hblank. apply strip_nil_iff in Hblank. rewrite strip_idem in Hblank.
  rewrite (on_generate_quiz_unfold _ _ _ _ _ _ _ Hgather), Hblank.
  exists (http_gets (links_of (links_text ui))
          ++ (if bool_decide (List.filter has_error scraped ≠ [])
              then [StWarning msg_scrape_warning] else [])).
  split; [reflexivity|]. cbn [log log_event].
  rewrite Hlog, <- !app_assoc.
  split; [reflexivity|]. split.
  - rewrite !Forall_app. split; [apply http_gets_not_from_create_quiz|].
    split; [|by repeat constructor].
    case_bool_decide; by repeat constructor.
  - rewrite !sent_inputs_app, sent_inputs_http_gets.
    by case_bool_decide.
Qed.

(** C3. In every state in which the key or the endpoint is absent from the
    secrets or empty, the store without a secrets file included,
    [create_quiz] raises: with a store that can be read, the [RuntimeError]
    with the fixed message after the four reads; with a store that cannot,
    the store's own exception at the first read. Up to there it has read
    secrets and done nothing else: the network is untouched, no client is
    built, no call is made. The handler then shows exactly the message of
    that exception. *)
Theorem missing_secrets_raise article focus questions lakemedel link_text w :
  truthy (secrets w !! "JOHAN_AZURE_OPENAI_KEY") = false
  ∨ truthy (secrets w !! "JOHAN_AZURE_OPENAI_ENDPOINT") = false →
  let exc := missing_credentials_error (secrets w) in
  let reads := reads_made (secrets w) in
  (∃ w',
     create_quiz article focus questions lakemedel link_text w = (Raise exc, w')
     ∧ log w' = log w ++ reads
     ∧ net w' = net w)
  ∧ Forall (λ e, completion_event e = false ∧ network_event e = false) reads
  ∧ (∀ entries, secrets w = SecretsFile entries →
       exc = {| exn_type := "RuntimeError"; exn_str := msg_secrets_missing |}
       ∧ reads = secrets_reads)
  ∧ ∀ ui links scraped_texts,
      article ≠ [] →
      ∃ w'',
        submit_article ui article links scraped_texts w = (Ok tt, w'')
        ∧ log w'' = log w ++ reads ++ [StError (exn_str exc)]
        ∧ net w'' = net w.
Proof.
  intros Hmissing exc reads.
  assert (negb (truthy (secrets w !! "JOHAN_AZURE_OPENAI_KEY"))
          || negb (truthy (secrets w !! "JOHAN_AZURE_OPENAI_ENDPOINT")) = true)
    as Hcond.
  { destruct Hmissing as [-> | ->]; [done|]. by rewrite orb_true_r. }
  split; [|split; [|split]].
  - destruct (create_quiz_spec article focus questions lakemedel link_text w)
      as (r & w' & evs & E & Hlog & _ & Hcase).
    rewrite Hcond in Hcase. destruct Hcase as (-> & Hnet & ->).
    exists w'. by rewrite app_nil_r in Hlog.
  - apply reads_made_quiet.
  - intros entries Hstore. unfold exc, reads. by rewrite Hstore.
  - intros ui links scraped_texts Hne.
    destruct (submit_article_spec ui article links scraped_texts w Hne)
      as (w'' & evs & shown & E & Hlog & _ & Hcase).
    rewrite Hcond in Hcase. destruct Hcase as (-> & Hnet & ->).
    exists w''. done.
Qed.

(** C6. Whenever the handler calls the completion capability, each text that
    was scraped successfully is in the request twice: as a part of the
    [article] slot, and as an item of the list in the [link_text] slot. *)
Theorem scraped_text_sent_twice ui section_text_output w r w' evs cfg inputs
    scraped w1 url page_text :
  scrape_links (links_of (links_text ui)) w = (Ok scraped, w1) →
  Fetched url page_text ∈ scraped →
  on_generate_quiz ui section_text_output w = (r, w') →
  log w' = log w ++ evs →
  ChainInvoke cfg inputs ∈ evs →
  substring page_text (article inputs)
  ∧ ∃ items, link_text inputs = PyList items ∧ page_text ∈ items.
Proof.
  intros Hscrape Hin Hrun Hlog Hsent.
  destruct (on_generate_quiz_spec ui section_text_output w)
    as (scraped' & w1' & w'' & evs' & Hscrape' & Hrun' & Hlog' & Htight & Hcase).
  rewrite Hscrape in Hscrape'. injection Hscrape' as <- <-.
  rewrite Hrun in Hrun'. injection Hrun' as -> <-.
  rewrite Hlog in Hlog'. apply app_inv_head in Hlog' as <-.
  apply elem_of_sent_inputs in Hsent.
  destruct Hcase as [E|E]; rewrite E in Hsent; [by apply elem_of_nil in Hsent|].
  apply list_elem_of_singleton in Hsent as ->. cbn [article link_text].
  assert (page_text ∈ texts_of scraped) as Htext.
  { unfold texts_of. apply list_elem_of_omap. by exists (Fetched url page_text). }
  split.
  - destruct (substring_join blank_line page_text
                (strip (join blank_line section_text_output) :: texts_of scraped))
      as (pre & post & ->); [by right|].
    apply strip_keeps. rewrite Forall_forall in Htight. auto.
  - exists (texts_of scraped). split; [|done].
    case_bool_decide as Hlinks; [done|].
    destruct (scrape_loop_spec requests_get html_parser
                (links_of (links_text ui)) [] w)
      as (? & ? & E' & Hurl & _).
    unfold scrape_links in Hscrape. rewrite Hscrape in E'.
    injection E' as <- <-.
    rewrite Hlinks in Hurl. destruct scraped; [by apply elem_of_nil in Hin|done].
Qed.

(** C9. With an empty prompt box the handler does what it does when the box
    holds the default focus text, and every request it sends has that text,
    which is not empty, in the [focus] slot. *)
Theorem empty_prompt_gets_default_focus ui section_text_output w r w' evs cfg
    inputs :
  prompt_text ui = [] →
  on_generate_quiz ui section_text_output w = (r, w') →
  log w' = log w ++ evs →
  ChainInvoke cfg inputs ∈ evs →
  focus inputs = default_focus
  ∧ default_focus ≠ []
  ∧ on_generate_quiz ui section_text_output w
    = on_generate_quiz (with_prompt_text default_focus ui) section_text_output w.
Proof.
  intros Hprompt Hrun Hlog Hsent. split; [|split; [done|]].
  - destruct (on_generate_quiz_spec ui section_text_output w)
      as (scraped' & w1' & w'' & evs' & _ & Hrun' & Hlog' & _ & Hcase).
    rewrite Hrun in Hrun'. injection Hrun' as -> <-.
    rewrite Hlog in Hlog'. apply app_inv_head in Hlog' as <-.
    apply elem_of_sent_inputs in Hsent.
    destruct Hcase as [E|E]; rewrite E in Hsent; [by apply elem_of_nil in Hsent|].
    apply list_elem_of_singleton in Hsent as ->. cbn [focus].
    by rewrite Hprompt.
  - unfold on_generate_quiz, submit_article, gather_article.
    simpl. by rewrite Hprompt.
Qed.

(** C10. The links are the lines of the text box that are not blank, each
    stripped, in order; each is non-empty and has no whitespace around it. The
    requests made by the handler's first half are exactly the requests for
    these links, so a request is made if and only if some line is not blank. *)
Theorem links_are_the_nonblank_lines ui section_text_output w :
  let links := links_of (links_text ui) in
  links = map strip (List.filter (λ line, negb (forallb isspace line))
                       (splitlines (links_text ui)))
  ∧ (∀ link, link ∈ links → link ≠ [] ∧ strip link = link)
  ∧ (links ≠ [] ↔
     ∃ line, line ∈ splitlines (links_text ui) ∧ forallb isspace line = false)
  ∧ ∃ r w' shown,
      gather_article ui section_text_output w = (r, w')
      ∧ log w' = log w ++ http_gets links ++ shown
      ∧ Forall (λ e, network_event e = false) shown.
Proof.
  intros links.
  assert (links = map strip (List.filter (λ line, negb (forallb isspace line))
                               (splitlines (links_text ui)))) as Hlinks.
  { unfold links, links_of. f_equal. apply filter_ext. intros line.
    apply nonempty_strip. }
  split; [exact Hlinks|]. split; [|split].
  - intros link. rewrite Hlinks, list_elem_of_In, in_map_iff.
    intros (line & <- & [_ Hline]%filter_In).
    split; [|apply strip_idem].
    intros E%strip_nil_iff. by rewrite E in Hline.
  - rewrite Hlinks. split.
    + destruct (List.filter _ _) as [|line rest] eqn:E; [done|]. intros _.
      assert (In line (List.filter (λ line, negb (forallb isspace line))
                         (splitlines (links_text ui)))) as Hin
        by (rewrite E; by left).
      apply filter_In in Hin as [Hin Hline]. exists line.
      split; [by apply list_elem_of_In|]. by apply negb_true_iff.
    + intros (line & Hin%list_elem_of_In & Hline) E.
      apply map_eq_nil in E.
      assert (In line (List.filter (λ line, negb (forallb isspace line))
                         (splitlines (links_text ui)))) as Hin'.
      { apply filter_In. split; [done|]. by rewrite Hline. }
      by rewrite E in Hin'.
  - destruct (gather_article_spec ui section_text_output w)
      as (scraped & w1 & w2 & _ & Hgather & Hlog & _).
    eexists _, w2, _. split; [exact Hgather|]. split; [exact Hlog|].
    case_bool_decide; by repeat constructor.
Qed.

End QuizFacts.

(** ** The page *)

Section PageFacts.

Context {Net CsvFile : Type}.
Variable requests_get : str → Net → Outcome Response * Net.
Variable html_parser : str → list Node.
Variable azure_chat_openai : LlmConfig → Outcome unit.
Variable chain_invoke : LlmConfig → Inputs → Net → Outcome str * Net.
Variable pd_read_csv : CsvFile → Outcome (list Row).
Variable csv_dict_reader : CsvFile → Outcome (list Row).

Abbreviation World := (World Net CsvFile).
Abbreviation load_treatments_data :=
  (@load_treatments_data Net CsvFile pd_read_csv csv_dict_reader).
Abbreviation on_generate_quiz :=
  (@on_generate_quiz Net CsvFile requests_get html_parser azure_chat_openai
     chain_invoke).
Abbreviation page :=
  (@page Net CsvFile requests_get html_parser azure_chat_openai chain_invoke
     pd_read_csv csv_dict_reader).

Implicit Types (w : World) (ui : UserInput).

(** With a dataset, the block returns the picks that are among the options
    offered and the texts gathered by the branch the page takes. *)
Lemma select_content_some data ui w :
  let selected_titles :=
    multiselect (page_titles (pd w) data) (titles_picked ui) in
  let selected_sections :=
    multiselect (page_section_labels (pd w) data selected_titles)
      (sections_picked ui) in
  selected_titles ⊆ page_titles (pd w) data
  ∧ selected_sections ⊆ page_section_labels (pd w) data selected_titles
  ∧ ∃ w',
      select_content (Some data) ui w
      = (Ok (selected_titles, selected_sections,
             page_section_text_output (pd w) data selected_titles
               selected_sections), w')
      ∧ (w' = w ∨ w' = log_event (StInfo msg_pick_sections) w).
Proof.
  intros selected_titles selected_sections.
  assert (∀ options picked : list str, multiselect options picked ⊆ options)
    as Hsub.
  { intros options picked x [_ Hx]%list_elem_of_In%filter_In.
    by apply bool_decide_eq_true in Hx. }
  split; [apply Hsub|]. split; [apply Hsub|].
  unfold select_content, bind, ret, st_info, emit. cbv beta.
  unfold selected_sections, selected_titles, page_section_labels, page_titles,
    page_section_text_output, uses_pandas.
  destruct (pd w && hasattr_columns data) eqn:Hpd; cbv iota;
    case_bool_decide as Hsel; eauto.
  - rewrite Hsel. eauto.
  - rewrite Hsel. eauto.
Qed.

(** C8. Without the dataset file the loader returns [None] and changes
    nothing; the page then shows the data-not-found error, selects nothing and
    gathers no section text, and carries on to the end of the script: the
    handler, if the button was pressed, runs on an empty selection, and the
    run ends normally. *)
Theorem missing_dataset_is_reported ui w :
  treatments_csv w = None →
  load_treatments_data w = (Ok None, w)
  ∧ (∀ w0 : World,
       select_content None ui w0
       = (Ok ([], [], []), log_event (StError msg_data_not_found) w0))
  ∧ (∃ w3,
       log w3 = log w ++ [ StImage (py "im-logo-white-text.png");
                           StTitle (py "IM Quizzer"); StDivider;
                           StMarkdown html_heading; StDivider;
                           StSubheader subheader_select;
                           StError msg_data_not_found;
                           StDivider; StMarkdown html_generate ]
       ∧ page ui w = if generate_quiz ui then on_generate_quiz ui [] w3
                     else (Ok tt, w3))
  ∧ ∃ w' evs, page ui w = (Ok tt, w') ∧ log w' = log w ++ evs
              ∧ StError msg_data_not_found ∈ evs.
Proof.
  intros Hfile.
  assert (load_treatments_data w = (Ok None, w)) as Hload.
  { unfold load_treatments_data. by rewrite Hfile. }
  assert (∃ w3,
       log w3 = log w ++ [ StImage (py "im-logo-white-text.png");
                           StTitle (py "IM Quizzer"); StDivider;
                           StMarkdown html_heading; StDivider;
                           StSubheader subheader_select;
                           StError msg_data_not_found;
                           StDivider; StMarkdown html_generate ]
       ∧ page ui w = if generate_quiz ui then on_generate_quiz ui [] w3
                     else (Ok tt, w3)) as (w3 & Hlog3 & Hpage).
  { unfold page, bind, st_divider, st_markdown, emit.
    unfold load_treatments_data. cbn [treatments_csv log_event].
    rewrite Hfile. cbn [select_content bind st_error emit ret].
    eexists. split; [|destruct (generate_quiz ui); reflexivity].
    cbn [log log_event]. by rewrite <- !app_assoc. }
  split; [exact Hload|]. split; [done|]. split; [by exists w3|].
  rewrite Hpage. destruct (generate_quiz ui).
  - destruct (on_generate_quiz_spec requests_get html_parser azure_chat_openai
                chain_invoke ui [] w3)
      as (_ & _ & w' & evs & _ & E & Hlog & _).
    exists w'. eexists. split; [exact E|]. rewrite Hlog, Hlog3, <- app_assoc.
    split; [reflexivity|]. set_solver.
  - exists w3. eexists. split; [done|]. split; [exact Hlog3|]. set_solver.
Qed.

End PageFacts.

(** ** The claims at concrete inputs *)

(** C4 as stated does not hold: a record with an empty section text adds
    nothing to the article. With the three records of [gapped] read by the
    [csv] branch and the label "A - S" selected, the code's article is "a",
    blank line, "b", while joining every matching section text gives "a",
    blank line, blank line, "b". *)
Lemma article_text_drops_empty_texts :
  ¬ (∀ (pd : bool) (data : Dataset) (selected_titles selected_sections : list str),
       frame_cells_ok data = true →
       selected_sections ⊆ page_section_labels pd data selected_titles →
       strip (join blank_line
                (page_section_text_output pd data selected_titles selected_sections))
       = article_text_all (rows_of data) selected_titles selected_sections).
Proof.
  intros H.
  specialize (H false (RowList Demo.gapped) [py "A"] [py "A - S"] eq_refl).
  assert ([py "A - S"] ⊆ page_section_labels false (RowList Demo.gapped) [py "A"])
    as Hsub.
  { intros x ->%list_elem_of_singleton. apply (bool_decide_unpack _).
    vm_compute. reflexivity. }
  specialize (H Hsub). vm_compute in H. discriminate H.
Qed.

Example gapped_article_code :
  strip (join blank_line
           (page_section_text_output false (RowList Demo.gapped) [py "A"]
              [py "A - S"]))
  = py "a" ++ blank_line ++ py "b".
Proof. vm_compute. reflexivity. Qed.

Example gapped_article_all :
  article_text_all Demo.gapped [py "A"] [py "A - S"]
  = py "a" ++ blank_line ++ blank_line ++ py "b".
Proof. vm_compute. reflexivity. Qed.

Lemma article_text_of_selection_witness :
  frame_cells_ok (RowList Demo.gapped) = true
  ∧ no_untitled_match Demo.gapped [py "A"] [py "A - S"] = true
  ∧ strip (join blank_line
             (page_section_text_output false (RowList Demo.gapped) [py "A"]
                [py "A - S"]))
    = article_text_nonempty Demo.gapped [py "A"] [py "A - S"].
Proof.
  split; [reflexivity|]. split; [vm_compute; reflexivity|].
  apply (article_text_of_selection false (RowList Demo.gapped) [py "A"]
           [py "A - S"]).
  - reflexivity.
  - intros _. vm_compute. reflexivity.
Defined.

Lemma section_labels_are_label_set_witness :
  is_label_set (page_section_labels false (RowList Demo.asthma) [py "Asthma"])
    Demo.asthma [py "Asthma"].
Proof.
  apply (section_labels_are_label_set false (RowList Demo.asthma) [py "Asthma"]).
  - reflexivity.
  - intros x ->%list_elem_of_singleton. apply (bool_decide_unpack _).
    vm_compute. reflexivity.
Defined.


Lemma missing_secrets_raise_witness :
  ∃ w',
    Demo.create_quiz (py "Use inhaled steroids.") (py "dosing") 3 [] (PyStr [])
      Demo.world_without_secrets
    = (Raise Demo.secret_not_found, w')
    ∧ log w' = [] ++ [SecretsGet "JOHAN_AZURE_OPENAI_KEY"]
    ∧ net w' = 0%nat.
Proof.
  apply (missing_secrets_raise Demo.azure_chat_openai Demo.chain_invoke
           (py "Use inhaled steroids.") (py "dosing") 3 [] (PyStr [])
           Demo.world_without_secrets).
  left. reflexivity.
Defined.

Lemma scraped_text_sent_twice_witness :
  substring (py "Hello") (article Demo.inputs)
  ∧ ∃ items, link_text Demo.inputs = PyList items ∧ py "Hello" ∈ items.
Proof.
  pose (run := Demo.on_generate_quiz Demo.ui [py "Use inhaled steroids."]
                 (Demo.world Demo.configured None)).
  pose (scraped := Demo.scrape_links (links_of (links_text Demo.ui))
                     (Demo.world Demo.configured None)).
  apply (scraped_text_sent_twice Demo.requests_get Demo.html_parser
           Demo.azure_chat_openai Demo.chain_invoke
           Demo.ui [py "Use inhaled steroids."] (Demo.world Demo.configured None)
           (fst run) (snd run) (log (snd run)) Demo.cfg Demo.inputs
           [Failed (py "http://a.test") (py "timed out");
            Fetched (py "http://b.test") (py "Hello")]
           (snd scraped) (py "http://b.test") (py "Hello")).
  - vm_compute. reflexivity.
  - apply list_elem_of_further, list_elem_of_here.
  - vm_compute. reflexivity.
  - reflexivity.
  - vm_compute.
    repeat first [apply list_elem_of_here | apply list_elem_of_further].
Defined.

Lemma empty_prompt_gets_default_focus_witness :
  prompt_text Demo.ui = [] ∧ focus Demo.inputs = default_focus.
Proof.
  split; [reflexivity|].
  pose (run := Demo.on_generate_quiz Demo.ui [py "Use inhaled steroids."]
                 (Demo.world Demo.configured None)).
  apply (empty_prompt_gets_default_focus Demo.requests_get Demo.html_parser
           Demo.azure_chat_openai Demo.chain_invoke
           Demo.ui [py "Use inhaled steroids."] (Demo.world Demo.configured None)
           (fst run) (snd run) (log (snd run)) Demo.cfg Demo.inputs).
  - reflexivity.
  - vm_compute. reflexivity.
  - reflexivity.
  - vm_compute.
    repeat first [apply list_elem_of_here | apply list_elem_of_further].
Defined.

Lemma missing_dataset_is_reported_witness :
  ∃ w' evs,
    Demo.page Demo.ui (Demo.world Demo.configured None) = (Ok tt, w')
    ∧ log w' = [] ++ evs
    ∧ StError msg_data_not_found ∈ evs.
Proof.
  apply (missing_dataset_is_reported Demo.requests_get Demo.html_parser
           Demo.azure_chat_openai Demo.chain_invoke Demo.pd_read_csv
           Demo.csv_dict_reader Demo.ui (Demo.world Demo.configured None)).
  reflexivity.
Defined.

Lemma empty_article_is_refused_witness :
  ∃ w1 evs,
    Demo.on_generate_quiz Demo.ui_empty [] (Demo.world Demo.configured None)
    = (Ok tt, log_event (StError msg_selection_empty) w1)
    ∧ Forall (λ e, from_create_quiz e = false)
        (evs ++ [StError msg_selection_empty]).
Proof.
  destruct (empty_article_is_refused Demo.requests_get Demo.html_parser
              Demo.azure_chat_openai Demo.chain_invoke Demo.ui_empty []
              (Demo.world Demo.configured None))
    as (article_text & links & scraped_texts & w1 & Hgather & Harticle & Hrefuse).
  vm_compute in Hgather. injection Hgather as <- <- <- <-.
  destruct (Hrefuse eq_refl) as (evs & Hrun & _ & Hevs & _).
  eexists _, evs. split; [exact Hrun|exact Hevs].
Defined.


(** ** More on the selection filter *)

Section SelectionMore.

Implicit Types (rows : list Row) (r : Row) (xs ys : list str).

Lemma sorted_ext xs ys :
  NoDup xs → NoDup ys → (∀ x, x ∈ xs ↔ x ∈ ys) → sorted xs = sorted ys.
Proof.
  intros Hxs Hys Hiff. apply (StronglySorted_unique str_le).
  - apply StronglySorted_merge_sort; apply _.
  - apply StronglySorted_merge_sort; apply _.
  - unfold sorted. rewrite !merge_sort_Permutation.
    by apply NoDup_Permutation.
Qed.

Lemma frame_cells_ok_title rows r t :
  frame_cells_ok (DataFrame rows) = true → r ∈ rows → title r = Some t → t ≠ [].
Proof.
  simpl. rewrite forallb_forall. intros Hok Hr%list_elem_of_In Ht ->.
  apply Hok in Hr. rewrite Ht in Hr. done.
Qed.

Lemma filter_filter_implied {A} (p q : A → bool) (l : list A) :
  (∀ x, p x = true → q x = true) →
  List.filter p (List.filter q l) = List.filter p l.
Proof.
  intros H. induction l as [|x l IH]; [done|]. simpl.
  destruct (q x) eqn:Hq; simpl.
  - by rewrite IH.
  - destruct (p x) eqn:Hp; [|done]. apply H in Hp. congruence.
Qed.

(** The options of the title widget, whatever branch the page takes: the
    non-empty titles of the dataset, each once, in increasing order. *)
Theorem page_titles_are_title_set (pd : bool) (data : Dataset) :
  frame_cells_ok data = true →
  StronglySorted str_lt (page_titles pd data)
  ∧ NoDup (page_titles pd data)
  ∧ ∀ t, t ∈ page_titles pd data ↔
         t ≠ [] ∧ ∃ r, r ∈ rows_of data ∧ title r = Some t.
Proof.
  intros Hok. unfold page_titles. destruct (uses_pandas pd data) eqn:Hpd.
  - assert (∃ rows, data = DataFrame rows) as [rows ->].
    { unfold uses_pandas in Hpd. destruct data, pd; try done; eauto. }
    simpl. split; [apply sorted_strict, unique_NoDup|].
    split; [apply sorted_NoDup, unique_NoDup|].
    intros t. rewrite pandas_titles_elem_of. split.
    + intros (r & Hr & Ht). eauto using frame_cells_ok_title.
    + intros (_ & r & Hr & Ht). eauto.
  - split; [apply sorted_strict, set_of_NoDup|].
    split; [apply sorted_NoDup, set_of_NoDup|].
    intros t. rewrite csv_titles_elem_of. split.
    + intros (r & Hr & Ht & Hne). eauto.
    + intros (Hne & r & Hr & Ht). eauto.
Qed.

(** On a dataset without empty-string cells the two branches offer the same
    titles and, for any selected titles, the same section labels. *)
Theorem branches_offer_same_options rows (selected_titles : list str) :
  frame_cells_ok (DataFrame rows) = true →
  Pandas.titles rows = Csv.titles rows
  ∧ Pandas.section_labels rows selected_titles
    = Csv.section_labels rows selected_titles.
Proof.
  intros Hok. split.
  - apply sorted_ext; [apply unique_NoDup|apply set_of_NoDup|].
    intros t. pose proof (pandas_titles_elem_of rows t) as Hp.
    pose proof (csv_titles_elem_of rows t) as Hc.
    unfold Pandas.titles, Csv.titles in Hp, Hc.
    rewrite sorted_elem_of in Hp, Hc. rewrite Hp, Hc. split.
    + intros (r & Hr & Ht). eauto using frame_cells_ok_title.
    + intros (r & Hr & Ht & _). eauto.
  - apply sorted_ext; [apply unique_NoDup|apply set_of_NoDup|].
    intros x. pose proof (pandas_labels_elem_of rows selected_titles x) as Hp.
    pose proof (csv_labels_elem_of rows selected_titles x) as Hc.
    unfold Pandas.section_labels, Csv.section_labels in Hp, Hc.
    rewrite sorted_elem_of in Hp, Hc. rewrite Hp, Hc. split.
    + intros (r & t & s & Hr & Ht & Hsel & Hs & ->). exists r, t, s.
      eauto 10 using frame_cells_ok_title, frame_cells_ok_section_title.
    + intros (r & t & s & Hr & Ht & Hsel & _ & Hs & _ & ->). exists r, t, s.
      eauto 10.
Qed.

(** On such a dataset the two branches also gather the same texts, provided
    no record without a section title formats to a selected label. *)
Theorem branches_gather_same_texts rows (selected_titles selected_sections : list str) :
  frame_cells_ok (DataFrame rows) = true →
  no_untitled_match rows selected_titles selected_sections = true →
  Pandas.section_text_output rows selected_titles selected_sections
  = Csv.section_text_output rows selected_titles selected_sections.
Proof.
  intros Hok Hno.
  transitivity (flat_map (matching_texts rows selected_titles) selected_sections).
  - apply flat_map_ext_in. intros lbl Hlbl. by apply pandas_texts_for_label.
  - symmetry. apply flat_map_ext_in. intros lbl Hlbl.
    by apply csv_texts_for_label with selected_sections.
Qed.

(** The texts gathered for a selection are the texts gathered for each of its
    labels alone, one label after the other: selecting more labels appends
    their texts and never changes the texts of the labels already selected. *)
Theorem texts_gathered_label_by_label (pd : bool) (data : Dataset)
    (selected_titles sections1 sections2 : list str) :
  page_section_text_output pd data selected_titles (sections1 ++ sections2)
  = page_section_text_output pd data selected_titles sections1
    ++ page_section_text_output pd data selected_titles sections2.
Proof.
  assert (∀ ss : list str,
            Pandas.section_text_output (rows_of data) selected_titles ss
            = flat_map
                (λ lbl, some_values
                   (map (λ rl : Row * str, section_text (fst rl))
                      (List.filter (λ rl : Row * str, bool_decide (snd rl = lbl))
                         (Pandas.filtered (rows_of data) selected_titles))))
                ss) as Hpd.
  { intros ss. unfold Pandas.section_text_output. apply flat_map_ext_in.
    intros lbl Hlbl. do 2 f_equal. apply filter_filter_implied.
    intros rl Hrl%bool_decide_eq_true. apply bool_decide_eq_true. by rewrite Hrl. }
  unfold page_section_text_output. destruct (uses_pandas pd data).
  - rewrite !Hpd. apply flat_map_app.
  - unfold Csv.section_text_output. apply flat_map_app.
Qed.

End SelectionMore.

(** ** More on the web fetcher *)

Section FetchMore.

Context {Net CsvFile : Type}.
Variable requests_get : str → Net → Outcome Response * Net.
Variable html_parser : str → list Node.

Abbreviation World := (World Net CsvFile).
Abbreviation scrape_loop := (@scrape_loop Net CsvFile requests_get html_parser).
Abbreviation scrape_links := (@scrape_links Net CsvFile requests_get html_parser).

Implicit Types (w : World) (links : list str) (results : list FetchResult).

(** The items a run of the loop appends do not depend on the items it
    started with. *)
Lemma scrape_loop_acc links results1 results2 new w w' :
  scrape_loop links results1 w = (Ok (results1 ++ new), w') →
  scrape_loop links results2 w = (Ok (results2 ++ new), w').
Proof.
  revert results1 results2 new w.
  induction links as [|link links IH]; intros results1 results2 new w.
  - simpl. unfold ret. intros [= E ->].
    rewrite <- (app_nil_r results1) in E at 1. apply app_inv_head in E as <-.
    by rewrite app_nil_r.
  - rewrite !scrape_loop_step.
    set (item := item_for html_parser link (requests_get link (net w)).1).
    set (w1 := set_net _ _). intros E.
    destruct (scrape_loop_spec requests_get html_parser links
                (results1 ++ [item]) w1) as (new0 & w0 & E0 & _).
    rewrite E0 in E. injection E as E ->.
    rewrite <- app_assoc in E. apply app_inv_head in E as <-.
    rewrite (IH _ (results2 ++ [item]) _ _ E0). by rewrite <- app_assoc.
Qed.

(** Scraping two batches one after the other is scraping their
    concatenation. *)
Theorem scrape_links_app links1 links2 w results1 w1 results2 w2 :
  scrape_links links1 w = (Ok results1, w1) →
  scrape_links links2 w1 = (Ok results2, w2) →
  scrape_links (links1 ++ links2) w = (Ok (results1 ++ results2), w2).
Proof.
  unfold scrape_links. intros E1 E2.
  rewrite (scrape_loop_app _ _ _ _ _ _ _ _ E1).
  by apply (scrape_loop_acc links2 [] results1).
Qed.

(** A link whose request raises gets the error item with [str(exc)]; a link
    answered with a status from 400 to 599 gets the error item with the
    message of the [HTTPError], whatever the body. The rest of the batch is
    requested all the same. *)
Theorem scrape_links_failure_item before link after w results_before w_before
    error :
  scrape_links before w = (Ok results_before, w_before) →
  (∃ exc n, requests_get link (net w_before) = (Raise exc, n)
            ∧ error = exn_str exc)
  ∨ (∃ response n,
       requests_get link (net w_before) = (Ok response, n)
       ∧ ((400 <=? status_code response) && (status_code response <? 600))%Z
         = true
       ∧ error = http_error response) →
  ∃ results w',
    scrape_links (before ++ link :: after) w = (Ok results, w')
    ∧ results !! length before = Some (Failed link error)
    ∧ length results = (length before + 1 + length after)%nat
    ∧ log w' = log w ++ http_gets (before ++ link :: after).
Proof.
  intros Hbefore Hfail.
  assert (item_for html_parser link (requests_get link (net w_before)).1
          = Failed link error) as Hitem.
  { destruct Hfail as [(exc & n & -> & ->)|(response & n & -> & Hbad & ->)];
      simpl; [done|]. by rewrite Hbad. }
  destruct (scrape_loop_spec requests_get html_parser (before ++ link :: after)
              [] w) as (results & w' & E & Hurl & _ & Hlog & _).
  exists results, w'. split; [exact E|]. split; [|split; [|exact Hlog]].
  - unfold scrape_links in *. simpl in E.
    rewrite (scrape_loop_app _ _ _ _ _ _ _ _ Hbefore) in E.
    rewrite scrape_loop_step, Hitem in E.
    destruct (scrape_loop_spec requests_get html_parser after
                (results_before ++ [Failed link error])
                (set_net (requests_get link (net w_before)).2
                   (log_event (HttpGet link user_agent 20) w_before)))
      as (new & w0 & E0 & _).
    rewrite E0 in E. injection E as <- _.
    destruct (scrape_loop_spec requests_get html_parser before [] w)
      as (new' & w1 & E1 & Hurl1 & _).
    rewrite Hbefore in E1. injection E1 as E1 _. simpl in E1.
    rewrite <- Hurl1, length_map, <- E1, <- app_assoc.
    by apply list_lookup_middle.
  - rewrite <- (length_map url_of results), Hurl, length_app. simpl. lia.
Qed.

End FetchMore.

(** ** More on the link box *)

Section LinksMore.

Implicit Types (s line : str) (lines : list str).

Lemma strip_Forall (P : N → Prop) s : Forall P s → Forall P (strip s).
Proof.
  intros H. unfold strip.
  destruct (lstrip_decomp s) as (pre & E & _).
  destruct (rstrip_decomp (lstrip s)) as (post & E' & _).
  rewrite E, E' in H. by apply Forall_app in H as [_ [H _]%Forall_app].
Qed.

(** No line of [splitlines] holds a line boundary. The statement covers a
    text and the same text with one more character in front, as the function
    looks two characters ahead. *)
Lemma splitlines_from_no_linebreak_aux s :
  (∀ line, Forall (λ c, islinebreak c = false) line →
           Forall (Forall (λ c, islinebreak c = false)) (splitlines_from line s))
  ∧ (∀ c line, Forall (λ c, islinebreak c = false) line →
               Forall (Forall (λ c, islinebreak c = false))
                 (splitlines_from line (c :: s))).
Proof.
  induction s as [|d s [IH1 IH2]].
  - split.
    + intros line Hline. simpl. destruct line; simpl; [constructor|].
      constructor; [done|constructor].
    + intros c line Hline. simpl. destruct (islinebreak c) eqn:Hc.
      * constructor; [done|constructor].
      * destruct (line ++ [c]) eqn:E; simpl; [constructor|].
        rewrite <- E. constructor; [|constructor].
        apply Forall_app. split; [done|]. by repeat constructor.
  - split; [apply IH2|].
    intros c line Hline.
    change (splitlines_from line (c :: d :: s))
      with (if islinebreak c
            then if (c =? 13) && (d =? 10)
                 then line :: splitlines_from [] s
                 else line :: splitlines_from [] (d :: s)
            else splitlines_from (line ++ [c]) (d :: s)).
    destruct (islinebreak c) eqn:Hc.
    + destruct ((c =? 13) && (d =? 10)); constructor; try done.
      * by apply IH1.
      * by apply IH2.
    + apply IH2. apply Forall_app. split; [done|]. by repeat constructor.
Qed.

Lemma splitlines_no_linebreak s :
  Forall (Forall (λ c, islinebreak c = false)) (splitlines s).
Proof. by apply splitlines_from_no_linebreak_aux. Qed.

Lemma splitlines_from_line line l rest :
  Forall (λ c, islinebreak c = false) l →
  splitlines_from line (l ++ 10 :: rest) = (line ++ l) :: splitlines_from [] rest.
Proof.
  revert line. induction l as [|c l IH]; intros line Hl.
  - rewrite app_nil_r. simpl. by destruct rest.
  - apply Forall_cons in Hl as [Hc Hl]. simpl. rewrite Hc, IH by done.
    by rewrite <- app_assoc.
Qed.

Lemma splitlines_from_last line l :
  Forall (λ c, islinebreak c = false) l → line ++ l ≠ [] →
  splitlines_from line l = [line ++ l].
Proof.
  revert line. induction l as [|c l IH]; intros line Hl Hne.
  - rewrite app_nil_r in *. simpl. by destruct line.
  - apply Forall_cons in Hl as [Hc Hl]. simpl. rewrite Hc, IH.
    + by rewrite <- app_assoc.
    + done.
    + by destruct line.
Qed.

Lemma splitlines_join lines :
  Forall (λ l, l ≠ [] ∧ Forall (λ c, islinebreak c = false) l) lines →
  splitlines (join [10] lines) = lines.
Proof.
  induction 1 as [|l lines [Hne Hl] Hlines IH]; [done|].
  unfold splitlines. destruct lines as [|l' lines].
  - simpl. by rewrite splitlines_from_last.
  - change (join [10] (l :: l' :: lines)) with (l ++ 10 :: join [10] (l' :: lines)).
    rewrite splitlines_from_line by done. simpl. f_equal. exact IH.
Qed.

Lemma links_of_shape text :
  Forall (λ l, l ≠ [] ∧ strip l = l ∧ Forall (λ c, islinebreak c = false) l)
    (links_of text).
Proof.
  unfold links_of. apply Forall_forall. intros link.
  rewrite list_elem_of_In, in_map_iff.
  intros (line & <- & [Hin Hline]%filter_In).
  split; [by destruct (strip line)|]. split; [apply strip_idem|].
  apply strip_Forall.
  pose proof (splitlines_no_linebreak text) as H.
  rewrite Forall_forall in H. by apply H, list_elem_of_In.
Qed.

(** The links read from the text box never hold a line boundary, and typing
    them back one per line gives the same links. *)
Theorem links_of_round_trip (text : str) :
  Forall (Forall (λ c, islinebreak c = false)) (links_of text)
  ∧ links_of (join [10] (links_of text)) = links_of text.
Proof.
  pose proof (links_of_shape text) as Hshape. split.
  - eapply Forall_impl; [exact Hshape|]. by intros l (_ & _ & ?).
  - unfold links_of at 1. rewrite splitlines_join.
    2:{ eapply Forall_impl; [exact Hshape|]. by intros l (? & _ & ?). }
    induction Hshape as [|l links (Hne & Hstrip & _) _ IH]; [done|].
    simpl. rewrite Hstrip. destruct l as [|c l]; [done|]. simpl.
    rewrite Hstrip. f_equal. exact IH.
Qed.

End LinksMore.

(** ** More on the quiz generator and the orchestrator *)

Section QuizMore.

Context {Net CsvFile : Type}.
Variable requests_get : str → Net → Outcome Response * Net.
Variable html_parser : str → list Node.
Variable azure_chat_openai : LlmConfig → Outcome unit.
Variable chain_invoke : LlmConfig → Inputs → Net → Outcome str * Net.

Abbreviation World := (World Net CsvFile).
Abbreviation create_quiz :=
  (@create_quiz Net CsvFile azure_chat_openai chain_invoke).
Abbreviation scrape_links := (@scrape_links Net CsvFile requests_get html_parser).
Abbreviation gather_article :=
  (@gather_article Net CsvFile requests_get html_parser).
Abbreviation submit_article :=
  (@submit_article Net CsvFile azure_chat_openai chain_invoke).
Abbreviation on_generate_quiz :=
  (@on_generate_quiz Net CsvFile requests_get html_parser azure_chat_openai
     chain_invoke).

Implicit Types (w : World) (ui : UserInput).

(** With the key and the endpoint configured, [create_quiz] builds the client
    from them, with the API version and the deployment taken from the secrets
    or, when absent there, the defaults "2024-12-01-preview" and "gpt-5-chat".
    If the constructor raises, that exception is the result and the network
    is untouched; otherwise one call is made with the inputs, and its outcome
    is the result. *)
Theorem create_quiz_configured article focus questions lakemedel link_text w
    (key endpoint : str) :
  secrets w !! "JOHAN_AZURE_OPENAI_KEY" = Some key → key ≠ [] →
  secrets w !! "JOHAN_AZURE_OPENAI_ENDPOINT" = Some endpoint → endpoint ≠ [] →
  let cfg :=
    {| azure_deployment :=
         from_option id (py "gpt-5-chat")
           (secrets w !! "JOHAN_AZURE_OPENAI_DEPLOYMENT");
       api_version :=
         from_option id (py "2024-12-01-preview")
           (secrets w !! "JOHAN_AZURE_OPENAI_API_VERSION");
       azure_endpoint := endpoint; api_key := key |} in
  let inputs := {| article := article; questions := questions; focus := focus;
                   lakemedel := lakemedel; link_text := link_text |} in
  ∃ w',
    match azure_chat_openai cfg with
    | Raise exc =>
        create_quiz article focus questions lakemedel link_text w = (Raise exc, w')
        ∧ log w' = log w ++ secrets_reads ++ [AzureChatOpenAI cfg]
        ∧ net w' = net w
    | Ok _ =>
        create_quiz article focus questions lakemedel link_text w
        = ((chain_invoke cfg inputs (net w)).1, w')
        ∧ log w' = log w ++ secrets_reads
                   ++ [AzureChatOpenAI cfg; ChainInvoke cfg inputs]
        ∧ net w' = (chain_invoke cfg inputs (net w)).2
    end.
Proof.
  intros Hkey Hkne Hend Hene cfg inputs.
  unfold create_quiz, bind, secrets_get_default, secrets_get, bind, emit, ret.
  destruct w as [n [entries|store_exc] file pd l]; [|done].
  change (entries !! "JOHAN_AZURE_OPENAI_KEY" = Some key) in Hkey.
  change (entries !! "JOHAN_AZURE_OPENAI_ENDPOINT" = Some endpoint) in Hend.
  cbn [secrets] in cfg.
  change (SecretsFile entries !! "JOHAN_AZURE_OPENAI_DEPLOYMENT")
    with (entries !! "JOHAN_AZURE_OPENAI_DEPLOYMENT") in (value of cfg).
  change (SecretsFile entries !! "JOHAN_AZURE_OPENAI_API_VERSION")
    with (entries !! "JOHAN_AZURE_OPENAI_API_VERSION") in (value of cfg).
  cbn [secrets log_event]. rewrite Hkey, Hend.
  destruct key as [|k key]; [done|]. destruct endpoint as [|e endpoint]; [done|].
  cbn [truthy negb orb from_option id]. unfold of_outcome, with_net.
  cbn [net log_event set_net]. fold cfg.
  destruct (azure_chat_openai cfg) as [[]|exc].
  - fold inputs. destruct (chain_invoke cfg inputs n) as [r n2].
    eexists. split; [reflexivity|]. simpl. split; [|done].
    by rewrite <- !app_assoc.
  - eexists. split; [reflexivity|]. simpl. split; [|done].
    by rewrite <- !app_assoc.
Qed.

(** Whatever [create_quiz] does on a non-empty article, the handler ends
    normally: a quiz is shown after a divider, as returned; an exception is
    caught and its message is shown, and nothing else. *)
Theorem generation_outcome_is_shown ui article_text links scraped_texts w r w1 :
  article_text ≠ [] →
  create_quiz article_text
    (if nonempty (prompt_text ui) then prompt_text ui else default_focus)
    (questions_slider ui) (lakemedel_text ui)
    (if bool_decide (links ≠ []) then PyList scraped_texts else PyStr []) w
  = (r, w1) →
  submit_article ui article_text links scraped_texts w
  = (Ok tt,
     match r with
     | Ok quiz_json => log_event (StMarkdown quiz_json) (log_event StDivider w1)
     | Raise exc => log_event (StError (exn_str exc)) w1
     end).
Proof.
  intros Hne E. unfold submit_article.
  destruct article_text as [|c article_text]; [done|].
  change (negb (nonempty (c :: article_text))) with false. cbv iota.
  unfold try_except, bind at 1. cbv beta. rewrite E. by destruct r.
Qed.

(** The scrape warning is shown exactly when some link of the batch failed,
    once, after all the requests. *)
Theorem scrape_warning_iff_failure ui section_text_output w scraped w1 :
  scrape_links (links_of (links_text ui)) w = (Ok scraped, w1) →
  ∃ r w',
    gather_article ui section_text_output w = (r, w')
    ∧ log w' = log w ++ http_gets (links_of (links_text ui))
               ++ (if existsb has_error scraped
                   then [StWarning msg_scrape_warning] else [])
    ∧ (existsb has_error scraped = true ↔
       ∃ url error, Failed url error ∈ scraped).
Proof.
  intros Hscrape.
  destruct (gather_article_spec requests_get html_parser ui section_text_output w)
    as (scraped' & w1' & w2 & Hscrape' & Hgather & Hlog & _).
  rewrite Hscrape in Hscrape'. injection Hscrape' as <- <-.
  eexists _, w2. split; [exact Hgather|].
  assert (existsb has_error scraped = bool_decide (List.filter has_error scraped ≠ []))
    as Hwarn.
  { clear. induction scraped as [|[url text|url error] scraped IH]; simpl;
      [done|exact IH|]. by case_bool_decide. }
  split; [by rewrite Hwarn|].
  rewrite existsb_exists. split.
  - intros ([url text|url error] & Hin%list_elem_of_In & Herr); [done|]. eauto.
  - intros (url & error & Hin%list_elem_of_In). by exists (Failed url error).
Qed.

(** With no section text, the article is the trimmed join of the scraped
    texts alone; with one page scraped it is that page's text as it is. *)
Theorem article_without_selection ui w article_text links scraped_texts w' :
  gather_article ui [] w = (Ok (article_text, links, scraped_texts), w') →
  article_text = strip (join blank_line scraped_texts)
  ∧ ∀ page_text, scraped_texts = [page_text] → article_text = page_text.
Proof.
  intros Hgather.
  destruct (gather_article_spec requests_get html_parser ui [] w)
    as (scraped & w1 & w2 & _ & Hgather' & _ & _ & _ & Htight).
  rewrite Hgather in Hgather'. injection Hgather' as -> _ -> _.
  assert (strip (join blank_line (strip (join blank_line []) :: texts_of scraped))
          = strip (join blank_line (texts_of scraped))) as E.
  { change (strip (join blank_line [])) with (@nil N).
    destruct (texts_of scraped) as [|t ts]; [done|].
    change (join blank_line ([] :: t :: ts))
      with ([10; 10] ++ join blank_line (t :: ts)).
    unfold strip. f_equal. }
  split; [exact E|]. intros page_text Hone.
  transitivity (strip (join blank_line (texts_of scraped))); [exact E|].
  rewrite Hone. cbn [join].
  apply tight_strip. rewrite Hone in Htight. by apply Forall_cons in Htight as [? _].
Qed.

(** The handler never raises. Its first events are the requests for the
    links, in order; no page is requested after that, and the completion
    capability is called at most once. A call is made only on a non-empty
    article. *)
Lemma on_generate_quiz_trace ui section_text_output w :
  let links := links_of (links_text ui) in
  ∃ scraped w1 w' rest,
    scrape_links links w = (Ok scraped, w1)
    ∧ on_generate_quiz ui section_text_output w = (Ok tt, w')
    ∧ log w' = log w ++ http_gets links ++ rest
    ∧ Forall (λ e, is_http_get e = false) rest
    ∧ (sent_inputs rest = []
       ∨ strip (join blank_line
                  (strip (join blank_line section_text_output)
                   :: texts_of scraped)) ≠ []
         ∧ sent_inputs rest =
           [ {| article := strip (join blank_line
                            (strip (join blank_line section_text_output)
                             :: texts_of scraped));
                questions := questions_slider ui;
                focus := if nonempty (prompt_text ui) then prompt_text ui
                         else default_focus;
                lakemedel := lakemedel_text ui;
                link_text := if bool_decide (links ≠ [])
                             then PyList (texts_of scraped) else PyStr [] |} ]).
Proof.
  intros links.
  destruct (gather_article_spec requests_get html_parser ui section_text_output w)
    as (scraped & w1 & w2 & Hscrape & Hgather & Hlog & Hsec & Hnet & Htight).
  fold links in Hscrape, Hgather, Hlog.
  exists scraped, w1.
  rewrite (on_generate_quiz_unfold requests_get html_parser azure_chat_openai
             chain_invoke _ _ _ _ _ _ _ Hgather).
  clear Hgather.
  remember (strip (join blank_line
              (strip (join blank_line section_text_output) :: texts_of scraped)))
    as text eqn:Htext.
  set (warn := if bool_decide (List.filter has_error scraped ≠ []) then _ else _) in *.
  assert (sent_inputs warn = [] ∧ Forall (λ e, is_http_get e = false) warn)
    as [Hwarn Hwarn'].
  { unfold warn. case_bool_decide; by repeat constructor. }
  destruct text as [|c text].
  - exists (log_event (StError msg_selection_empty) w2),
      (warn ++ [StError msg_selection_empty]).
    split; [done|]. split; [done|]. split; [|split].
    + simpl. rewrite Hlog. by rewrite <- !app_assoc.
    + apply Forall_app. split; [done|]. by repeat constructor.
    + left. by rewrite sent_inputs_app, Hwarn.
  - destruct (submit_article_spec azure_chat_openai chain_invoke ui (c :: text)
                links (texts_of scraped) w2 ltac:(done))
      as (w' & evs & shown & E & Hlog' & Hshown & Hcase).
    exists w', (warn ++ reads_made (secrets w2) ++ evs ++ shown).
    split; [done|]. split; [done|]. split; [|split].
    + rewrite Hlog', Hlog. by rewrite <- !app_assoc.
    + assert (Forall (λ e, is_http_get e = false) shown) as Hs.
      { destruct Hshown as [[? ->]|[? ->]]; by repeat constructor. }
      assert (Forall (λ e, is_http_get e = false) evs) as He.
      { destruct (negb _ || negb _).
        - destruct Hcase as (-> & _). constructor.
        - destruct Hcase as [cfg [->| ->]]; by repeat constructor. }
      destruct (reads_made_quiet (secrets w2)) as (_ & Hreads & _).
      rewrite !Forall_app. repeat split; done.
    + assert (sent_inputs shown = []) as Hs.
      { by destruct Hshown as [[? ->]|[? ->]]. }
      destruct (reads_made_quiet (secrets w2)) as (_ & _ & Hreads).
      rewrite !sent_inputs_app, Hwarn, Hs, Hreads. simpl. rewrite app_nil_r.
      destruct (negb _ || negb _).
      * destruct Hcase as (-> & _). by left.
      * destruct Hcase as [cfg [->| ->]]; [by left|]. right. by split.
Qed.

(** The handler never raises. Its first events are the requests for the
    links, in order; no page is requested after that, and the completion
    capability is called at most once. *)
Theorem handler_requests_then_generates_once ui section_text_output w :
  ∃ w' rest,
    on_generate_quiz ui section_text_output w = (Ok tt, w')
    ∧ log w' = log w ++ http_gets (links_of (links_text ui)) ++ rest
    ∧ Forall (λ e, is_http_get e = false) rest
    ∧ (length (sent_inputs rest) ≤ 1)%nat.
Proof.
  destruct (on_generate_quiz_trace ui section_text_output w)
    as (scraped & w1 & w' & rest & _ & Hrun & Hlog & Hrest & Hsent).
  exists w', rest. repeat split; try done.
  destruct Hsent as [E | [_ E]]; rewrite E; simpl; lia.
Qed.

(** In every request the handler sends, the article is non-empty and has no
    whitespace around it, the question count and the drug text are those of
    the form, a non-empty prompt is the focus as typed (also when it is only
    whitespace), and without links the [link_text] slot is the empty string
    and the article is the trimmed join of the section texts. *)
Theorem request_slots_are_the_form_values ui section_text_output w r w' evs cfg
    inputs :
  on_generate_quiz ui section_text_output w = (r, w') →
  log w' = log w ++ evs →
  ChainInvoke cfg inputs ∈ evs →
  article inputs ≠ [] ∧ strip (article inputs) = article inputs
  ∧ questions inputs = questions_slider ui
  ∧ lakemedel inputs = lakemedel_text ui
  ∧ (prompt_text ui ≠ [] → focus inputs = prompt_text ui)
  ∧ (links_of (links_text ui) = [] →
     link_text inputs = PyStr []
     ∧ article inputs = strip (join blank_line section_text_output)).
Proof.
  intros Hrun Hlog Hsent.
  destruct (on_generate_quiz_trace ui section_text_output w)
    as (scraped & w1 & w'' & rest & Hscrape & Hrun' & Hlog' & _ & Hcase).
  rewrite Hrun in Hrun'. injection Hrun' as -> <-.
  rewrite Hlog in Hlog'. apply app_inv_head in Hlog' as ->.
  apply elem_of_sent_inputs in Hsent.
  rewrite sent_inputs_app, sent_inputs_http_gets in Hsent. simpl in Hsent.
  destruct Hcase as [E|[Hne E]]; rewrite E in Hsent;
    [by apply elem_of_nil in Hsent|].
  apply list_elem_of_singleton in Hsent as ->.
  cbn [article questions lakemedel focus link_text].
  split; [done|]. split; [apply strip_idem|]. split; [done|]. split; [done|].
  split.
  - intros Hp. by destruct (prompt_text ui).
  - intros Hlinks. rewrite Hlinks in Hscrape |- *.
    assert (scraped = []) as ->.
    { unfold scrape_links in Hscrape. simpl in Hscrape. unfold ret in Hscrape.
      by injection Hscrape as <- _. }
    split; [done|]. cbn [texts_of omap list_omap join]. apply strip_idem.
Qed.

End QuizMore.

(** ** More on the page *)

Section PageMore.

Context {Net CsvFile : Type}.
Variable requests_get : str → Net → Outcome Response * Net.
Variable html_parser : str → list Node.
Variable azure_chat_openai : LlmConfig → Outcome unit.
Variable chain_invoke : LlmConfig → Inputs → Net → Outcome str * Net.
Variable pd_read_csv : CsvFile → Outcome (list Row).
Variable csv_dict_reader : CsvFile → Outcome (list Row).

Abbreviation World := (World Net CsvFile).
Abbreviation load_treatments_data :=
  (@load_treatments_data Net CsvFile pd_read_csv csv_dict_reader).
Abbreviation page :=
  (@page Net CsvFile requests_get html_parser azure_chat_openai chain_invoke
     pd_read_csv csv_dict_reader).

Implicit Types (w : World) (ui : UserInput).

Lemma load_treatments_data_keeps_world w r w' :
  load_treatments_data w = (r, w') → w' = w.
Proof.
  unfold load_treatments_data, bind, of_outcome, ret.
  destruct (treatments_csv w) as [file|]; [|by intros [= _ <-]].
  destruct (pd w).
  - by destruct (pd_read_csv file); intros [= _ <-].
  - by destruct (csv_dict_reader file); intros [= _ <-].
Qed.

(** The loader changes nothing. It returns [None] only when the file is
    absent; data it returns are the rows of the parser in use, a data frame
    exactly when pandas is importable, so the page's test for the pandas
    branch agrees with the loader. *)
Theorem load_treatments_data_result w r w' :
  load_treatments_data w = (r, w') →
  w' = w
  ∧ (r = Ok None ↔ treatments_csv w = None)
  ∧ ∀ data, r = Ok (Some data) →
      uses_pandas (pd w) data = pd w
      ∧ ∃ file, treatments_csv w = Some file
                ∧ (if pd w then pd_read_csv file else csv_dict_reader file)
                  = Ok (rows_of data).
Proof.
  unfold load_treatments_data, bind, of_outcome, ret.
  destruct (treatments_csv w) as [file|] eqn:Hfile.
  - destruct (pd w) eqn:Hpd.
    + destruct (pd_read_csv file) as [rows|exc] eqn:Hread; intros [= <- <-];
        (split; [done|]); (split; [done|]); intros data [= <-]; eauto.
    + destruct (csv_dict_reader file) as [rows|exc] eqn:Hread; intros [= <- <-];
        (split; [done|]); (split; [done|]); intros data [= <-]; eauto.
  - intros [= <- <-]. split; [done|]. split; [done|]. done.
Qed.

(** An exception of the parser is not handled: the page raises it after the
    heading, shows no message of its own and does not reach the widgets or
    the handler. *)
Theorem dataset_parse_failure_stops_page ui w file exc :
  treatments_csv w = Some file →
  (if pd w then pd_read_csv file else csv_dict_reader file) = Raise exc →
  ∃ w',
    page ui w = (Raise exc, w')
    ∧ log w' = log w ++ [ StImage (py "im-logo-white-text.png");
                          StTitle (py "IM Quizzer"); StDivider;
                          StMarkdown html_heading; StDivider;
                          StSubheader subheader_select ]
    ∧ net w' = net w.
Proof.
  intros Hfile Hparse.
  unfold page, bind, st_divider, st_markdown, emit, load_treatments_data.
  cbn [treatments_csv pd log_event]. rewrite Hfile.
  unfold bind, of_outcome.
  destruct (pd w); rewrite Hparse; eexists; (split; [reflexivity|]);
    cbn [log net log_event]; by rewrite <- !app_assoc.
Qed.

Lemma labels_of_no_title (pd : bool) (data : Dataset) :
  page_section_labels pd data [] = [].
Proof.
  assert (∀ rows, List.filter (λ r : Row, isin (title r) []) rows = []) as Hnone.
  { intros rows. induction rows as [|r rows IH]; [done|]. simpl.
    destruct (title r) as [t|]; simpl; exact IH. }
  unfold page_section_labels, Pandas.section_labels, Pandas.filtered,
    Csv.section_labels, Csv.filtered.
  rewrite !Hnone. by destruct (uses_pandas pd data).
Qed.

(** With a dataset, the page keeps of the picks those that are among the
    options offered. The hint asking for a section is shown exactly when no
    such section remains, and then no text is gathered; that is the case
    whenever no title is selected. *)
Theorem selection_hint_iff_no_section data ui w :
  let selected_titles :=
    multiselect (page_titles (pd w) data) (titles_picked ui) in
  let selected_sections :=
    multiselect (page_section_labels (pd w) data selected_titles)
      (sections_picked ui) in
  select_content (Some data) ui w
  = (Ok (selected_titles, selected_sections,
         page_section_text_output (pd w) data selected_titles selected_sections),
     if bool_decide (selected_sections ≠ []) then w
     else log_event (StInfo msg_pick_sections) w)
  ∧ (selected_sections = [] →
     page_section_text_output (pd w) data selected_titles selected_sections = [])
  ∧ (selected_titles = [] → selected_sections = []).
Proof.
  intros selected_titles selected_sections. split; [|split].
  - unfold select_content, bind, ret, st_info, emit. cbv beta.
    unfold selected_sections, selected_titles, page_section_labels, page_titles,
      page_section_text_output, uses_pandas.
    destruct (pd w && hasattr_columns data) eqn:Hpd; cbv iota;
      case_bool_decide as Hsel; try done; by rewrite Hsel.
  - intros ->. unfold page_section_text_output.
    by destruct (uses_pandas (pd w) data).
  - intros E. unfold selected_sections. rewrite E, labels_of_no_title.
    unfold multiselect. induction (sections_picked ui) as [|x xs IH]; [done|].
    simpl. exact IH.
Qed.

Lemma select_content_quiet data ui w r w' :
  select_content data ui w = (r, w') →
  net w' = net w
  ∧ ∃ evs, log w' = log w ++ evs
           ∧ Forall (λ e, network_event e = false ∧ from_create_quiz e = false) evs.
Proof.
  destruct data as [data|].
  - destruct (select_content_some data ui w) as (_ & _ & w0 & E & Hw0).
    rewrite E. intros [= <- <-]. destruct Hw0 as [-> | ->].
    + split; [done|]. exists []. by rewrite app_nil_r.
    + split; [done|]. eexists. split; [reflexivity|]. by repeat constructor.
  - unfold select_content, bind, st_error, emit, ret. intros [= <- <-].
    split; [done|]. eexists. split; [reflexivity|]. by repeat constructor.
Qed.

(** Until the button is pressed the page reaches neither the network nor the
    secrets: a run without the button makes no request, reads no secret,
    builds no client, whatever the dataset and the form hold. *)
Theorem idle_page_is_silent ui w r w' :
  generate_quiz ui = false →
  page ui w = (r, w') →
  net w' = net w
  ∧ ∃ evs, log w' = log w ++ evs
           ∧ Forall (λ e, network_event e = false ∧ from_create_quiz e = false) evs.
Proof.
  intros Hidle. unfold page, bind, st_divider, st_markdown, emit. cbv beta.
  set (w0 := log_event (StSubheader subheader_select) _).
  assert (net w0 = net w ∧ log w0 = log w ++ [ StImage (py "im-logo-white-text.png");
                          StTitle (py "IM Quizzer"); StDivider;
                          StMarkdown html_heading; StDivider;
                          StSubheader subheader_select ]) as [Hnet0 Hlog0].
  { split; [done|]. unfold w0. cbn [log log_event]. by rewrite <- !app_assoc. }
  clearbody w0.
  destruct (load_treatments_data w0)
    as [[data|exc] w1] eqn:Hload.
  - apply load_treatments_data_keeps_world in Hload as ->.
    destruct (select_content data ui w0) as [[[[st ss] texts]|exc] w2] eqn:Hsel.
    + apply select_content_quiet in Hsel as (Hnet2 & evs & Hlog2 & Hevs).
      rewrite Hidle. unfold ret. intros [= <- <-]. cbn [net log log_event].
      split; [congruence|].
      eexists. rewrite Hlog2, Hlog0, <- !app_assoc. split; [reflexivity|].
      rewrite !Forall_app. split; [by repeat constructor|].
      split; [done|]. by repeat constructor.
    + apply select_content_quiet in Hsel as (Hnet2 & evs & Hlog2 & Hevs).
      intros [= <- <-]. split; [congruence|].
      eexists. rewrite Hlog2, Hlog0, <- !app_assoc. split; [reflexivity|].
      rewrite !Forall_app. split; [by repeat constructor|]. done.
  - apply load_treatments_data_keeps_world in Hload as ->.
    intros [= <- <-]. split; [done|]. eexists. split; [exact Hlog0|].
    by repeat constructor.
Qed.

End PageMore.

(** ** The further properties at concrete inputs *)

Lemma page_titles_are_title_set_witness :
  StronglySorted str_lt (page_titles true (DataFrame Demo.asthma))
  ∧ NoDup (page_titles true (DataFrame Demo.asthma))
  ∧ ∀ t, t ∈ page_titles true (DataFrame Demo.asthma) ↔
         t ≠ [] ∧ ∃ r, r ∈ Demo.asthma ∧ title r = Some t.
Proof.
  apply (page_titles_are_title_set true (DataFrame Demo.asthma)). reflexivity.
Defined.

Lemma branches_offer_same_options_witness :
  Pandas.titles Demo.asthma = Csv.titles Demo.asthma
  ∧ Pandas.section_labels Demo.asthma [py "Asthma"]
    = Csv.section_labels Demo.asthma [py "Asthma"].
Proof.
  apply (branches_offer_same_options Demo.asthma [py "Asthma"]). reflexivity.
Defined.

Lemma branches_gather_same_texts_witness :
  Pandas.section_text_output Demo.asthma [py "Asthma"] [py "Asthma - Treatment"]
  = Csv.section_text_output Demo.asthma [py "Asthma"] [py "Asthma - Treatment"].
Proof.
  apply (branches_gather_same_texts Demo.asthma [py "Asthma"]
           [py "Asthma - Treatment"]).
  - reflexivity.
  - vm_compute. reflexivity.
Defined.

Lemma scrape_links_app_witness :
  Demo.scrape_links ([py "http://a.test"] ++ [py "http://b.test"])
    (Demo.world ∅ None)
  = (Ok ([Failed (py "http://a.test") (py "timed out")]
         ++ [Fetched (py "http://b.test") (py "Hello")]),
     snd (Demo.scrape_links [py "http://a.test"; py "http://b.test"]
            (Demo.world ∅ None))).
Proof.
  apply (scrape_links_app Demo.requests_get Demo.html_parser
           [py "http://a.test"] [py "http://b.test"] (Demo.world ∅ None)
           [Failed (py "http://a.test") (py "timed out")]
           (snd (Demo.scrape_links [py "http://a.test"] (Demo.world ∅ None)))).
  - vm_compute. reflexivity.
  - vm_compute. reflexivity.
Defined.

Lemma scrape_links_failure_item_witness :
  ∃ results w',
    Demo.scrape_links [py "http://a.test"; py "http://c.test"; py "http://b.test"]
      (Demo.world ∅ None) = (Ok results, w')
    ∧ results !! 1%nat
      = Some (Failed (py "http://c.test") (py "404 Client Error: Not Found"))
    ∧ length results = 3%nat
    ∧ log w' = [] ++ http_gets [py "http://a.test"; py "http://c.test";
                                py "http://b.test"].
Proof.
  apply (scrape_links_failure_item Demo.requests_get Demo.html_parser
           [py "http://a.test"] (py "http://c.test") [py "http://b.test"]
           (Demo.world ∅ None)
           [Failed (py "http://a.test") (py "timed out")]
           (snd (Demo.scrape_links [py "http://a.test"] (Demo.world ∅ None)))
           (py "404 Client Error: Not Found")).
  - vm_compute. reflexivity.
  - right.
    exists {| status_code := 404; text := py "gone";
              http_error := py "404 Client Error: Not Found" |}, 2%nat.
    split; [vm_compute; reflexivity|]. split; reflexivity.
Defined.

Lemma create_quiz_configured_witness :
  ∃ w',
    Demo.create_quiz (article Demo.inputs) default_focus 3 [] (PyList [py "Hello"])
      (Demo.world Demo.configured None)
    = (Ok (py "## Quiz"), w')
    ∧ log w' = [] ++ secrets_reads
               ++ [AzureChatOpenAI Demo.cfg; ChainInvoke Demo.cfg Demo.inputs]
    ∧ net w' = 1%nat.
Proof.
  apply (create_quiz_configured Demo.azure_chat_openai Demo.chain_invoke
           (article Demo.inputs) default_focus 3 [] (PyList [py "Hello"])
           (Demo.world Demo.configured None)
           (py "key") (py "https://example.openai.azure.com")).
  - vm_compute. reflexivity.
  - discriminate.
  - vm_compute. reflexivity.
  - discriminate.
Defined.

Lemma generation_outcome_is_shown_witness :
  log (snd (submit_article Demo.azure_chat_openai Demo.chain_invoke Demo.ui
              (py "Use inhaled steroids.") [] [] (Demo.world ∅ None)))
  = secrets_reads ++ [StError msg_secrets_missing].
Proof.
  rewrite (generation_outcome_is_shown Demo.azure_chat_openai Demo.chain_invoke
             Demo.ui (py "Use inhaled steroids.") [] [] (Demo.world ∅ None)
             (Raise {| exn_type := "RuntimeError"; exn_str := msg_secrets_missing |})
             (snd (Demo.create_quiz (py "Use inhaled steroids.") default_focus 3 []
                     (PyStr []) (Demo.world ∅ None)))).
  - vm_compute. reflexivity.
  - discriminate.
  - vm_compute. reflexivity.
Defined.

Lemma scrape_warning_iff_failure_witness :
  ∃ r w',
    gather_article Demo.requests_get Demo.html_parser Demo.ui []
      (Demo.world ∅ None) = (r, w')
    ∧ log w' = [] ++ http_gets [py "http://a.test"; py "http://b.test"]
               ++ [StWarning msg_scrape_warning].
Proof.
  destruct (scrape_warning_iff_failure Demo.requests_get Demo.html_parser
              Demo.ui [] (Demo.world ∅ None)
              [Failed (py "http://a.test") (py "timed out");
               Fetched (py "http://b.test") (py "Hello")]
              (snd (Demo.scrape_links [py "http://a.test"; py "http://b.test"]
                      (Demo.world ∅ None))))
    as (r & w' & Hgather & Hlog & _).
  - vm_compute. reflexivity.
  - exists r, w'. split; [exact Hgather|exact Hlog].
Defined.

Lemma article_without_selection_witness :
  fst (gather_article Demo.requests_get Demo.html_parser Demo.ui []
         (Demo.world ∅ None))
  = Ok (py "Hello", [py "http://a.test"; py "http://b.test"], [py "Hello"])
  ∧ py "Hello" = strip (join blank_line [py "Hello"]).
Proof.
  split; [vm_compute; reflexivity|].
  destruct (article_without_selection Demo.requests_get Demo.html_parser Demo.ui
              (Demo.world ∅ None) (py "Hello")
              [py "http://a.test"; py "http://b.test"] [py "Hello"]
              (snd (gather_article Demo.requests_get Demo.html_parser Demo.ui []
                      (Demo.world ∅ None)))) as [E _].
  - vm_compute. reflexivity.
  - exact E.
Defined.

Lemma request_slots_are_the_form_values_witness :
  article Demo.inputs ≠ [] ∧ strip (article Demo.inputs) = article Demo.inputs
  ∧ questions Demo.inputs = questions_slider Demo.ui
  ∧ lakemedel Demo.inputs = lakemedel_text Demo.ui.
Proof.
  pose (run := Demo.on_generate_quiz Demo.ui [py "Use inhaled steroids."]
                 (Demo.world Demo.configured None)).
  destruct (request_slots_are_the_form_values Demo.requests_get Demo.html_parser
              Demo.azure_chat_openai Demo.chain_invoke
              Demo.ui [py "Use inhaled steroids."]
              (Demo.world Demo.configured None)
              (fst run) (snd run) (log (snd run)) Demo.cfg Demo.inputs)
    as (H1 & H2 & H3 & H4 & _).
  - vm_compute. reflexivity.
  - reflexivity.
  - vm_compute.
    repeat first [apply list_elem_of_here | apply list_elem_of_further].
  - repeat split; assumption.
Defined.

Lemma load_treatments_data_result_witness :
  uses_pandas true (DataFrame Demo.asthma) = true.
Proof.
  pose (w := {| net := 0%nat; secrets := SecretsFile ∅;
                treatments_csv := Some Demo.asthma;
                pd := true; log := [] |} : World nat (list Row)).
  destruct (load_treatments_data_result Demo.pd_read_csv Demo.csv_dict_reader w
              (Ok (Some (DataFrame Demo.asthma))) w) as (_ & _ & H).
  - vm_compute. reflexivity.
  - destruct (H (DataFrame Demo.asthma) eq_refl) as [Hbranch _]. exact Hbranch.
Defined.

Lemma dataset_parse_failure_stops_page_witness :
  ∃ w',
    page Demo.requests_get Demo.html_parser Demo.azure_chat_openai
      Demo.chain_invoke Demo.pd_read_csv Demo.broken_reader Demo.ui
      (Demo.world Demo.configured (Some Demo.asthma))
    = (Raise {| exn_type := "ValueError";
                exn_str := py "Usecols do not match columns" |}, w')
    ∧ log w' = [] ++ [ StImage (py "im-logo-white-text.png");
                       StTitle (py "IM Quizzer"); StDivider;
                       StMarkdown html_heading; StDivider;
                       StSubheader subheader_select ]
    ∧ net w' = 0%nat.
Proof.
  apply (dataset_parse_failure_stops_page Demo.requests_get Demo.html_parser
           Demo.azure_chat_openai Demo.chain_invoke Demo.pd_read_csv
           Demo.broken_reader Demo.ui
           (Demo.world Demo.configured (Some Demo.asthma)) Demo.asthma).
  - reflexivity.
  - reflexivity.
Defined.

Lemma idle_page_is_silent_witness :
  net (snd (Demo.page Demo.ui_idle (Demo.world Demo.configured (Some Demo.asthma))))
  = 0%nat.
Proof.
  pose (run := Demo.page Demo.ui_idle (Demo.world Demo.configured (Some Demo.asthma))).
  destruct (idle_page_is_silent Demo.requests_get Demo.html_parser
              Demo.azure_chat_openai Demo.chain_invoke Demo.pd_read_csv
              Demo.csv_dict_reader Demo.ui_idle
              (Demo.world Demo.configured (Some Demo.asthma))
              (fst run) (snd run)) as [Hnet _].
  - reflexivity.
  - vm_compute. reflexivity.
  - exact Hnet.
Defined.
